(** * file-explorer: the file-operation engine of [file-explorer.py]

    A shallow embedding of the clipboard, paste, and rename actions of
    [AdvancedFileManager] (src/file-explorer.py), and the properties the
    specification states about them.

    Layout:
    - [posixpath]-style helpers the actions call ([basename], [join],
      [splitext]), written after the Python library functions;
    - the operating-system layer as an interface ([FileSystem]): the engine
      only calls [os.path.exists], [os.path.isdir], [shutil.move],
      [shutil.copytree], [shutil.copy2] and [os.rename], and the control-flow
      theorems hold for every implementation of them;
    - the program state ([is_cut_operation], [cut_paths], the system
      clipboard, the file system, the message boxes shown) and the actions
      as state transformers, with a small exception monad for the [try] block;
    - a reference file system (a finite map from paths to nodes) on which the
      concrete scenarios are evaluated;
    - the theorems. *)

From stdpp Require Import base option list strings pretty gmap fin_maps.
From Stdlib Require Import Ascii ZArith Lia.
From Stdlib.Strings Require Byte.

Local Open Scope Z_scope.

(** ** Paths and the [os.path] helpers (posixpath flavour) *)

Abbreviation path := string.

Definition sep : ascii := "/"%char.
Definition extsep : ascii := "."%char.

(** [s.rfind(c)]: the index of the last occurrence of [c], or [-1]. *)
Fixpoint rfind (c : ascii) (s : string) : Z :=
  match s with
  | EmptyString => -1
  | String a s' =>
      let r := rfind c s' in
      if decide (0 ≤ r) then 1 + r
      else if decide (a = c) then 0 else -1
  end.

(** [s[n:]] and [s[:n]] for [0 ≤ n]. *)
Fixpoint str_drop (n : nat) (s : string) : string :=
  match n, s with
  | O, _ => s
  | S n', String _ s' => str_drop n' s'
  | S _, EmptyString => EmptyString
  end.

Fixpoint str_take (n : nat) (s : string) : string :=
  match n, s with
  | O, _ => EmptyString
  | S n', String a s' => String a (str_take n' s')
  | S _, EmptyString => EmptyString
  end.

Definition startswith (c : ascii) (s : string) : bool :=
  match s with
  | String a _ => bool_decide (a = c)
  | EmptyString => false
  end.

Fixpoint endswith (c : ascii) (s : string) : bool :=
  match s with
  | EmptyString => false
  | String a EmptyString => bool_decide (a = c)
  | String _ s' => endswith c s'
  end.

(** [posixpath.basename]: [i = p.rfind('/') + 1; return p[i:]]. *)
Definition basename (p : path) : string :=
  let i := rfind sep p + 1 in
  str_drop (Z.to_nat i) p.

(** [posixpath.dirname]:
    [i = p.rfind('/') + 1; head = p[:i];
     if head and head != '/'*len(head): head = head.rstrip('/')]. *)
Fixpoint rstrip (c : ascii) (s : string) : string :=
  match s with
  | EmptyString => EmptyString
  | String a s' =>
      match rstrip c s' with
      | EmptyString => if decide (a = c) then EmptyString else String a EmptyString
      | r => String a r
      end
  end.

Definition dirname (p : path) : path :=
  let i := rfind sep p + 1 in
  let head := str_take (Z.to_nat i) p in
  match rstrip sep head with
  | EmptyString => head
  | stripped => stripped
  end.

(** [posixpath.join(a, b)] for one component [b]:
    [if b.startswith('/'): path = b
     elif not path or path.endswith('/'): path += b
     else: path += '/' + b]. *)
Definition join (a b : path) : path :=
  if startswith sep b then b
  else if bool_decide (a = "") || endswith sep a then a +:+ b
  else a +:+ String sep b.

(** The loop of [genericpath._splitext] that skips leading dots: it looks for
    a character other than ['.'] in [p[filenameIndex:dotIndex]]. *)
Fixpoint has_non_dot (s : string) : bool :=
  match s with
  | EmptyString => false
  | String a s' => if decide (a = extsep) then has_non_dot s' else true
  end.

(** [posixpath.splitext] ([genericpath._splitext] with [sep = '/'], no
    [altsep], [extsep = '.']): split at the last dot, provided the dot comes
    after the last separator and is not part of a run of leading dots. *)
Definition splitext (p : path) : string * string :=
  let sepIndex := rfind sep p in
  let dotIndex := rfind extsep p in
  if decide (sepIndex < dotIndex) then
    let filenameIndex := sepIndex + 1 in
    if has_non_dot (str_take (Z.to_nat (dotIndex - filenameIndex))
                      (str_drop (Z.to_nat filenameIndex) p))
    then (str_take (Z.to_nat dotIndex) p, str_drop (Z.to_nat dotIndex) p)
    else (p, "")
  else (p, "").

(** [str(counter)] for the non-negative counters of the collision loop. *)
Definition str (n : nat) : string := pretty n.

Example basename_ex : basename "/home/u/report.txt" = "report.txt".
Proof. reflexivity. Qed.

Example basename_plain_ex : basename "report.txt" = "report.txt".
Proof. reflexivity. Qed.

Example dirname_ex : dirname "/home/u/report.txt" = "/home/u".
Proof. reflexivity. Qed.

Example dirname_root_ex : dirname "/report.txt" = "/".
Proof. reflexivity. Qed.

Example join_ex : join "/home/u" "report.txt" = "/home/u/report.txt".
Proof. reflexivity. Qed.

Example join_root_ex : join "/" "report.txt" = "/report.txt".
Proof. reflexivity. Qed.

Example splitext_ex : splitext "report.tar.gz" = ("report.tar", ".gz").
Proof. reflexivity. Qed.

Example splitext_hidden_ex : splitext ".bashrc" = (".bashrc", "").
Proof. reflexivity. Qed.

Example splitext_none_ex : splitext "Makefile" = ("Makefile", "").
Proof. reflexivity. Qed.

Example splitext_dir_ex : splitext "my.folder" = ("my", ".folder").
Proof. reflexivity. Qed.

Example str_ex : str 12 = "12".
Proof. vm_compute. reflexivity. Qed.

Local Close Scope Z_scope.

(** ** Exceptions and message boxes *)

(** The exceptions the file-system calls raise (all are subclasses of
    Python's [Exception], so the [except Exception] clauses catch each). *)
Inductive exn : Type :=
  | FileNotFoundError (filename : path)
  | FileExistsError (filename : path)
  | NotADirectoryError (filename : path)
  | IsADirectoryError (filename : path)
  | PermissionError (filename : path)
  | ShutilError (src dst : path)
  | OSError (filename : path)
  | RecursionError.

Global Instance exn_eq_dec : EqDecision exn.
Proof. solve_decision. Defined.

(** A [QMessageBox.critical] shown by an action; the text of each box is a
    fixed caption followed by [str(e)]. *)
Inductive message : Type :=
  | PasteFailed (e : exn)
  | RenameFailed (e : exn).

Global Instance message_eq_dec : EqDecision message.
Proof. solve_decision. Defined.

(** ** The operating-system layer

    The engine reaches the file system only through the calls below. A call
    either returns ([None]) or raises ([Some e]); in both cases it hands back
    the file system as the call left it. [fs_listing] is not a call of the
    program: it states that a file system holds finitely many entries. *)
Class FileSystem (Fs : Type) : Type := {
  fs_exists : Fs → path → bool;                      (* os.path.exists *)
  fs_isdir : Fs → path → bool;                       (* os.path.isdir *)
  fs_read : Fs → path → option (list Byte.byte);     (* content of a regular file *)
  fs_move : path → path → Fs → option exn * Fs;      (* shutil.move *)
  fs_copytree : path → path → Fs → option exn * Fs;  (* shutil.copytree *)
  fs_copy2 : path → path → Fs → option exn * Fs;     (* shutil.copy2 *)
  fs_rename : path → path → Fs → option exn * Fs;    (* os.rename *)
  fs_listing : Fs → list path;
  fs_listing_complete files p : fs_exists files p = true → p ∈ fs_listing files
}.

(** What the theorems on the fate of sources assume of the copy and move
    calls, when the destination does not exist yet (the engine resolves the
    destination to a free name first):
    - a copy, finished or not, leaves every existing entry as it was;
    - a move that returns has removed its source. *)
Class FileSystemLaws (Fs : Type) `{FileSystem Fs} : Prop := {
  copy2_preserves src dst files e files' p :
    fs_exists files dst = false →
    fs_copy2 src dst files = (e, files') →
    fs_exists files p = true →
    fs_exists files' p = true ∧ fs_isdir files' p = fs_isdir files p
    ∧ fs_read files' p = fs_read files p;
  copytree_preserves src dst files e files' p :
    fs_exists files dst = false →
    fs_copytree src dst files = (e, files') →
    fs_exists files p = true →
    fs_exists files' p = true ∧ fs_isdir files' p = fs_isdir files p
    ∧ fs_read files' p = fs_read files p;
  move_removes_source src dst files files' :
    fs_exists files dst = false →
    fs_move src dst files = (None, files') →
    fs_exists files' src = false
}.

(** ** Program state *)

(** The fields of [AdvancedFileManager] the actions read and write, the
    system clipboard, the file system, and the message boxes shown so far.
    [clipboard] is [None] when the clipboard's mime data has no URLs
    ([hasUrls()] is false), and [Some urls] with the local file of each URL
    otherwise. *)
Record state (Fs : Type) : Type := mkState {
  is_cut_operation : bool;
  cut_paths : list path;
  clipboard : option (list path);
  fs : Fs;
  messages : list message
}.
Global Arguments mkState {Fs} _ _ _ _ _.
Global Arguments is_cut_operation {Fs} _.
Global Arguments cut_paths {Fs} _.
Global Arguments clipboard {Fs} _.
Global Arguments fs {Fs} _.
Global Arguments messages {Fs} _.

(** The state of a freshly started application ([__init__]) over a given
    file system and clipboard content. *)
Definition init {Fs} (clip : option (list path)) (files : Fs) : state Fs :=
  mkState false [] clip files [].

(** ** Statements that may raise *)

Inductive result (A : Type) : Type :=
  | Ok (a : A)
  | Raise (e : exn).
Global Arguments Ok {A} _.
Global Arguments Raise {A} _.

(** A statement runs on the program state and returns or raises; what it
    did to the state before raising stays done. *)
Definition M (Fs A : Type) : Type := state Fs → result A * state Fs.

Global Instance M_ret {Fs} : MRet (M Fs) := λ A a st, (Ok a, st).
Global Instance M_bind {Fs} : MBind (M Fs) := λ A B f m st,
  match m st with
  | (Ok a, st') => f a st'
  | (Raise e, st') => (Raise e, st')
  end.

(** [for x in xs: body(x)]: the first iteration that raises ends the loop. *)
Fixpoint for_each {Fs A} (xs : list A) (body : A → M Fs unit) : M Fs unit :=
  match xs with
  | [] => mret ()
  | x :: xs' => body x ;; for_each xs' body
  end.

(** [try: body  except Exception as e: handler(e)]. *)
Definition try_except {Fs} (body : M Fs unit) (handler : exn → state Fs → state Fs)
    (st : state Fs) : state Fs :=
  match body st with
  | (Ok _, st') => st'
  | (Raise e, st') => handler e st'
  end.

(** A file-system call as a statement. *)
Definition os_call {Fs} (call : Fs → option exn * Fs) : M Fs unit := λ st,
  let '(r, files) := call (fs st) in
  let st' := mkState (is_cut_operation st) (cut_paths st) (clipboard st)
               files (messages st) in
  match r with
  | None => (Ok (), st')
  | Some e => (Raise e, st')
  end.

Definition show_message {Fs} (m : message) (st : state Fs) : state Fs :=
  mkState (is_cut_operation st) (cut_paths st) (clipboard st) (fs st)
    (messages st ++ [m]).

(** ** The actions of [AdvancedFileManager] *)

Section engine.
Context `{FileSystem Fs}.

Implicit Types (st : state Fs) (files : Fs) (paths urls : list path).

(** *** Collision avoidance ([action_paste], lines 271-280) *)

(** [f"{base}_copy{counter}{ext}"]. *)
Definition copy_name (base ext : string) (counter : nat) : string :=
  base +:+ "_copy" +:+ str counter +:+ ext.

(** [os.path.join(dest_dir, f"{base}_copy{counter}{ext}")]: the path the
    collision loop probes at counter [n]. *)
Definition probe_path (dest_dir : path) (base ext : string) (n : nat) : path :=
  join dest_dir (copy_name base ext n).

(** [while os.path.exists(dest_path):
       dest_path = os.path.join(dest_dir, f"{base}_copy{counter}{ext}")
       counter += 1]
    with a bound on the number of iterations; [None] when the bound is
    reached before the loop ends. *)
Fixpoint while_exists (fuel : nat) files (dest_dir : path) (base ext : string)
    (dest_path : path) (counter : nat) : option path :=
  if fs_exists files dest_path then
    match fuel with
    | O => None
    | S fuel' =>
        while_exists fuel' files dest_dir base ext
          (probe_path dest_dir base ext counter) (S counter)
    end
  else Some dest_path.

(** [dest_path = os.path.join(dest_dir, file_name)
     if os.path.exists(dest_path):
         base, ext = os.path.splitext(file_name)
         counter = 1
         while ...] *)
Definition resolve_dest_bounded (fuel : nat) files (dest_dir : path)
    (file_name : string) : option path :=
  let dest_path := join dest_dir file_name in
  if fs_exists files dest_path then
    let '(base, ext) := splitext file_name in
    while_exists fuel files dest_dir base ext dest_path 1
  else Some dest_path.

(** One more iteration than the file system has entries is always enough
    ([resolve_dest_enough] below: the loop returns under every bound above
    the number of entries), so the resolved destination is a total function
    of the file system; the default is never used. *)
Definition resolve_fuel files : nat := S (length (fs_listing files)).

Definition resolve_dest files (dest_dir : path) (file_name : string) : path :=
  default (join dest_dir file_name)
    (resolve_dest_bounded (resolve_fuel files) files dest_dir file_name).

(** *** Marking ([action_copy], [action_cut]) *)

(** [paths] is the result of [get_selected_paths()]. *)
Definition action_copy paths st : state Fs :=
  match paths with
  | [] => st                                            (* if not paths: return *)
  | _ => mkState false (cut_paths st) (Some paths) (fs st) (messages st)
  end.

Definition action_cut paths st : state Fs :=
  match paths with
  | [] => st                                            (* if not paths: return *)
  | _ => mkState true paths (Some paths) (fs st) (messages st)
  end.

(** *** Paste ([action_paste]) *)

(** [is_move = self.is_cut_operation and (src_path in self.cut_paths)],
    read from the fields when the item is handled. *)
Definition is_move st (src_path : path) : bool :=
  is_cut_operation st && bool_decide (src_path ∈ cut_paths st).

(** The [else] branch of an item: copy a directory tree or a single file. *)
Definition copy_to (src_path dest_path : path) : M Fs unit := λ st,
  if fs_isdir (fs st) src_path
  then os_call (fs_copytree src_path dest_path) st
  else os_call (fs_copy2 src_path dest_path) st.

Definition dest_for (dest_dir src_path : path) : M Fs path := λ st,
  (Ok (resolve_dest (fs st) dest_dir (basename src_path)), st).

(** [if is_move: shutil.move(src_path, dest_path)  else: ...]. *)
Definition move_or_copy (src_path dest_path : path) : M Fs unit := λ st,
  if is_move st src_path
  then os_call (fs_move src_path dest_path) st
  else copy_to src_path dest_path st.

(** The body of the [for url in urls] loop. *)
Definition paste_item (dest_dir src_path : path) : M Fs unit :=
  dest_path ← dest_for dest_dir src_path;
  move_or_copy src_path dest_path.

(** The same body without the move branch. *)
Definition copy_item (dest_dir src_path : path) : M Fs unit :=
  dest_path ← dest_for dest_dir src_path;
  copy_to src_path dest_path.

(** [if self.is_cut_operation: ... reset the mark and clear the clipboard]. *)
Definition reset_after_paste : M Fs unit := λ st,
  if is_cut_operation st
  then (Ok (), mkState false [] None (fs st) (messages st))
  else (Ok (), st).

(** The [try] block: the loop, then the reset. *)
Definition paste_block (dest_dir : path) urls : M Fs unit :=
  for_each urls (paste_item dest_dir) ;; reset_after_paste.

(** [dest_dir] is [self.model.filePath(self.table.rootIndex())], the
    directory the table shows. *)
Definition action_paste (dest_dir : path) st : state Fs :=
  match clipboard st with
  | None => st                                   (* if not hasUrls(): return *)
  | Some urls =>
      try_except (paste_block dest_dir urls)
        (λ e, show_message (PasteFailed e)) st
  end.

(** *** Rename ([action_rename]) *)

(** A row of the table: what [model.filePath(index)] and
    [model.fileName(index)] return for it. *)
Record index : Type := mkIndex { filePath : path; fileName : string }.

(** [indexes] are the selected rows; [new_name] and [ok] are what
    [QInputDialog.getText] returns. *)
Definition action_rename (indexes : list index) (new_name : string) (ok : bool)
    st : state Fs :=
  match indexes with
  | [idx] =>
      let old_path := filePath idx in
      let old_name := fileName idx in
      if ok && negb (bool_decide (new_name = "")) && negb (bool_decide (new_name = old_name))
      then
        let new_path := join (dirname old_path) new_name in
        try_except (os_call (fs_rename old_path new_path))
          (λ e, show_message (RenameFailed e)) st
      else st
  | _ => st                                   (* if len(indexes) != 1: return *)
  end.

(** *** The batch engine as the specification words it

    Section 4.3 of the specification: every item is attempted, its outcome
    is recorded, and a failure does not stop the loop. Used only to state
    what the specification asks of a batch. *)
Fixpoint spec_paste (dest_dir : path) urls st : list (path * option exn) * state Fs :=
  match urls with
  | [] => ([], st)
  | src_path :: rest =>
      let '(r, st') := paste_item dest_dir src_path st in
      let outcome := match r with Ok _ => None | Raise e => Some e end in
      let '(outcomes, st'') := spec_paste dest_dir rest st' in
      ((src_path, outcome) :: outcomes, st'')
  end.

(** *** Vocabulary of the theorems *)

(** Two states that differ at most in the file system. *)
Definition same_mark st st' : Prop :=
  is_cut_operation st' = is_cut_operation st
  ∧ cut_paths st' = cut_paths st
  ∧ clipboard st' = clipboard st
  ∧ messages st' = messages st.

(** Every entry of [files] is still there in [files'], with its kind and
    its content. *)
Definition entries_preserved files files' : Prop :=
  ∀ p, fs_exists files p = true →
    fs_exists files' p = true
    ∧ fs_isdir files' p = fs_isdir files p
    ∧ fs_read files' p = fs_read files p.

(** The paste of the clipboard's URLs by copies alone. *)
Definition paste_by_copy (dest_dir : path) st : state Fs :=
  match clipboard st with
  | None => st
  | Some urls =>
      try_except (for_each urls (copy_item dest_dir))
        (λ e, show_message (PasteFailed e)) st
  end.

End engine.

(** ** A reference file system

    A finite map from absolute paths to nodes, after the behaviour of the
    Python calls on a POSIX system. Paths are compared as strings (no
    symbolic links, no [..], no doubled separators, no relative paths); the
    entries below a directory [d] are the keys that extend [d ++ "/"].
    Permissions, devices and disk space are not modelled. The engine calls
    [fs_move], [fs_copytree] and [fs_copy2] only with a destination that
    does not exist; [move] does not model the other case and raises there. *)

Inductive node : Type :=
  | File (content : list Byte.byte)
  | Dir.

Global Instance byte_eq_dec : EqDecision Byte.byte := Byte.byte_eq_dec.

Global Instance node_eq_dec : EqDecision node.
Proof. solve_decision. Defined.

Module RefFs.

Abbreviation t := (gmap string node).

Definition exists_ (m : t) (p : path) : bool := bool_decide (is_Some (m !! p)).

Definition isdir (m : t) (p : path) : bool := bool_decide (m !! p = Some Dir).

Definition read (m : t) (p : path) : option (list Byte.byte) :=
  match m !! p with
  | Some (File c) => Some c
  | _ => None
  end.

(** [p] is [src] or lies below it. *)
Definition under (src p : path) : bool :=
  bool_decide (p = src) || String.prefix (src +:+ "/") p.

(** The entries at and below [src]. *)
Definition subtree (src : path) (m : t) : t :=
  filter (λ kv : path * node, under src kv.1 = true) m.

(** The entries outside [src]. *)
Definition without (src : path) (m : t) : t :=
  filter (λ kv : path * node, under src kv.1 = false) m.

(** The subtree of [src] with [src] replaced by [dst] in every path. *)
Definition rebased (src dst : path) (m : t) : t :=
  list_to_map
    ((λ kv : path * node, (dst +:+ str_drop (String.length src) kv.1, kv.2))
       <$> map_to_list (subtree src m)).

(** The directories above [p], nearest first. *)
Fixpoint ancestors_upto (fuel : nat) (p : path) : list path :=
  match fuel with
  | O => []
  | S fuel' =>
      let d := dirname p in
      if bool_decide (d = p) || bool_decide (d = "") then []
      else d :: ancestors_upto fuel' d
  end.

Definition ancestors (p : path) : list path := ancestors_upto (String.length p) p.

(** [os.makedirs] for the parents of [dst]: possible unless one of them is
    a regular file; it adds the missing ones. *)
Definition parents_ok (dst : path) (m : t) : bool :=
  forallb (λ a, negb (bool_decide (is_Some (read m a)))) (ancestors dst).

Definition with_parents (dst : path) (m : t) : t :=
  m ∪ list_to_map ((λ a, (a, Dir)) <$> ancestors dst).

(** What a call raises when the parent of [dst] is not a directory: the
    parent is a regular file or is missing. [named] is the path the
    exception names. *)
Definition no_parent (named dst : path) (m : t) : exn :=
  match m !! dirname dst with
  | Some (File _) => NotADirectoryError named
  | _ => FileNotFoundError named
  end.

(** [shutil.copy2(src, dst)] *)
Definition copy2 (src dst : path) (m : t) : option exn * t :=
  match m !! src with
  | Some (File c) =>
      if isdir m (dirname dst) then (None, <[dst := File c]> m)
      else (Some (no_parent dst dst m), m)
  | Some Dir => (Some (IsADirectoryError src), m)
  | None => (Some (FileNotFoundError src), m)
  end.

(** [shutil.copytree(src, dst)]: [dst] must not exist; its missing parents
    are created. A copy into a directory of [src] itself is the copy of
    what [src] held before; a copy to a place deeper inside [src] runs into
    its own output and ends in [RecursionError] (the directories the real
    call has made by then are not modelled). *)
Definition copytree (src dst : path) (m : t) : option exn * t :=
  match m !! src with
  | Some Dir =>
      if exists_ m dst then (Some (FileExistsError dst), m)
      else if parents_ok dst m
      then
        if under src dst && negb (bool_decide (dirname dst = src))
        then (Some RecursionError, m)
        else (None, with_parents dst m ∪ rebased src dst m)
      else (Some (NotADirectoryError dst), m)
  | Some (File _) => (Some (NotADirectoryError src), m)
  | None => (Some (FileNotFoundError src), m)
  end.

(** [shutil.move(src, dst)] for a [dst] that does not exist: [os.rename],
    and when that fails a copy followed by the removal of [src]; a
    directory is not moved into itself. *)
Definition move (src dst : path) (m : t) : option exn * t :=
  match m !! src with
  | Some n =>
      if exists_ m dst then (Some (FileExistsError dst), m)
      else
        match n with
        | File _ =>
            if under src dst then (Some (NotADirectoryError dst), m)
            else if isdir m (dirname dst)
            then (None, without src (m ∪ rebased src dst m))
            else (Some (no_parent dst dst m), m)
        | Dir =>
            if under src dst then (Some (ShutilError src dst), m)
            else if parents_ok dst m
            then (None, without src (with_parents dst m ∪ rebased src dst m))
            else (Some (NotADirectoryError dst), m)
        end
  | None => (Some (FileNotFoundError src), m)
  end.

(** [os.rename(src, dst)]: a file replaces a file, a directory replaces an
    empty directory; the exceptions name [src]. *)
Definition rename (src dst : path) (m : t) : option exn * t :=
  match m !! src with
  | Some n =>
      if bool_decide (src = dst) then (None, m)
      else if under src dst
      then (Some (match n with
                  | File _ => NotADirectoryError src
                  | Dir => OSError src
                  end), m)
      else if negb (isdir m (dirname dst)) then (Some (no_parent src dst m), m)
      else
        let renamed := without src (rebased src dst m ∪ m) in
        match n, m !! dst with
        | File _, Some Dir => (Some (IsADirectoryError src), m)
        | Dir, Some (File _) => (Some (NotADirectoryError src), m)
        | Dir, Some Dir =>
            if bool_decide (size (subtree dst m) = 1) then (None, renamed)
            else (Some (OSError src), m)
        | _, _ => (None, renamed)
        end
  | None => (Some (FileNotFoundError src), m)
  end.

Definition listing (m : t) : list path := (map_to_list m).*1.

Lemma listing_complete (m : t) (p : path) : exists_ m p = true → p ∈ listing m.
Proof.
  unfold exists_, listing. intros Hp%bool_decide_eq_true.
  destruct Hp as [n Hn]. apply list_elem_of_fmap. exists (p, n).
  split; [done|]. by apply elem_of_map_to_list.
Qed.

End RefFs.

Global Instance ref_fs : FileSystem (gmap string node) := {|
  fs_exists := RefFs.exists_;
  fs_isdir := RefFs.isdir;
  fs_read := RefFs.read;
  fs_move := RefFs.move;
  fs_copytree := RefFs.copytree;
  fs_copy2 := RefFs.copy2;
  fs_rename := RefFs.rename;
  fs_listing := RefFs.listing;
  fs_listing_complete := RefFs.listing_complete
|}.

(** ** Concrete file systems for the scenarios *)

Module Scenario.

Definition bytes (s : string) : list Byte.byte := String.list_byte_of_string s.

(** Something outside the program removes an entry. *)
Definition external_delete (p : path) (st : state (gmap string node))
    : state (gmap string node) :=
  mkState (is_cut_operation st) (cut_paths st) (clipboard st)
    (delete p (fs st)) (messages st).

(** Three files in [/src], an empty [/dst]. *)
Definition three_files : gmap string node :=
  list_to_map
    [("/", Dir); ("/src", Dir); ("/dst", Dir);
     ("/src/a.txt", File (bytes "alpha"));
     ("/src/b.txt", File (bytes "beta"));
     ("/src/c.txt", File (bytes "gamma"))].

Definition batch : list path := ["/src/a.txt"; "/src/b.txt"; "/src/c.txt"].

(** The three files are marked, then [b.txt] is deleted from outside. *)
Definition copied_then_b_deleted : state (gmap string node) :=
  external_delete "/src/b.txt" (action_copy batch (init None three_files)).

Definition cut_then_b_deleted : state (gmap string node) :=
  external_delete "/src/b.txt" (action_cut batch (init None three_files)).

(** A directory [my.folder] whose name is taken in [/dst]. *)
Definition dotted_folder : gmap string node :=
  list_to_map
    [("/", Dir); ("/src", Dir); ("/dst", Dir);
     ("/src/my.folder", Dir);
     ("/src/my.folder/notes", File (bytes "notes"));
     ("/dst/my.folder", Dir)].


End Scenario.

(** ** The remaining file-system calls and actions *)

(** The calls of [action_delete] and [action_new_folder]. *)
Class FileSystemEdit (Fs : Type) `{FileSystem Fs} : Type := {
  fs_rmtree : path → Fs → option exn * Fs;     (* shutil.rmtree *)
  fs_remove : path → Fs → option exn * Fs;     (* os.remove *)
  fs_makedirs : path → Fs → option exn * Fs    (* os.makedirs *)
}.

(** What the theorems on deletion and folder creation assume of these
    calls:
    - a removal that returns has removed its path, and a removal, finished
      or not, creates nothing and leaves what remains as it was;
    - [os.makedirs] leaves every existing entry as it was, makes its target
      a directory when it returns, and raises [FileExistsError] without a
      change when the target exists. *)
Class FileSystemEditLaws (Fs : Type) `{FileSystemEdit Fs} : Prop := {
  remove_gone p files files' :
    fs_remove p files = (None, files') → fs_exists files' p = false;
  rmtree_gone p files files' :
    fs_rmtree p files = (None, files') → fs_exists files' p = false;
  remove_only_removes p files e files' q :
    fs_remove p files = (e, files') →
    fs_exists files' q = true →
    fs_exists files q = true ∧ fs_isdir files' q = fs_isdir files q
    ∧ fs_read files' q = fs_read files q;
  rmtree_only_removes p files e files' q :
    fs_rmtree p files = (e, files') →
    fs_exists files' q = true →
    fs_exists files q = true ∧ fs_isdir files' q = fs_isdir files q
    ∧ fs_read files' q = fs_read files q;
  makedirs_preserves p files e files' :
    fs_makedirs p files = (e, files') → entries_preserved files files';
  makedirs_creates p files files' :
    fs_makedirs p files = (None, files') → fs_isdir files' p = true;
  makedirs_existing p files :
    fs_exists files p = true →
    fs_makedirs p files = (Some (FileExistsError p), files)
}.

(** What the theorems on the result of a paste assume of the copy and move
    calls, for a destination that does not exist:
    - a copy or a move that returns has created its destination, and a
      single-file copy gives it the content of the source;
    - a move of a missing source raises [FileNotFoundError] without a
      change. *)
Class FileSystemPasteLaws (Fs : Type) `{FileSystem Fs} : Prop := {
  copy2_creates src dst files files' :
    fs_exists files dst = false →
    fs_copy2 src dst files = (None, files') →
    fs_exists files' dst = true ∧ fs_read files' dst = fs_read files src;
  copytree_creates src dst files files' :
    fs_exists files dst = false →
    fs_copytree src dst files = (None, files') →
    fs_exists files' dst = true;
  move_creates src dst files files' :
    fs_exists files dst = false →
    fs_move src dst files = (None, files') →
    fs_exists files' dst = true;
  move_missing src dst files :
    fs_exists files src = false →
    fs_move src dst files = (Some (FileNotFoundError src), files)
}.

(** The answer to the confirmation box of [action_delete]. *)
Inductive reply : Type := Yes | No.

Section more_actions.
Context `{FileSystemEdit Fs}.
Implicit Types (st : state Fs) (files : Fs) (paths : list path).

(** [[self.model.filePath(idx) for idx in indexes]] *)
Definition get_selected_paths (indexes : list index) : list path :=
  filePath <$> indexes.

(** [try: body  except Exception as e: QMessageBox.critical(...)] for the
    actions whose error box is not a [message]: the result is the state and
    the exception the box reports, if a box is shown. *)
Definition try_report (body : M Fs unit) st : state Fs * option exn :=
  match body st with
  | (Ok _, st') => (st', None)
  | (Raise e, st') => (st', Some e)
  end.

(** The body of the loop of [action_delete]. *)
Definition delete_item (p : path) : M Fs unit := λ st,
  if fs_isdir (fs st) p
  then os_call (fs_rmtree p) st
  else os_call (fs_remove p) st.

(** [action_delete]: [paths] is the selection and [answer] what the
    confirmation box returns. *)
Definition action_delete paths (answer : reply) st : state Fs * option exn :=
  match paths with
  | [] => (st, None)                                    (* if not paths: return *)
  | _ =>
      match answer with
      | Yes => try_report (for_each paths delete_item) st
      | No => (st, None)
      end
  end.

(** [action_new_folder]: [current_dir] is the directory the table shows;
    [new_folder_name] and [ok] are what [QInputDialog.getText] returns. *)
Definition action_new_folder (current_dir : path) (new_folder_name : string)
    (ok : bool) st : state Fs * option exn :=
  if ok && negb (bool_decide (new_folder_name = ""))
  then
    let target := join current_dir new_folder_name in
    try_report (os_call (fs_makedirs target)) st
  else (st, None).

(** [action_properties]: the path whose properties are shown, if any (the
    first selected one). *)
Definition action_properties paths : option path := head paths.

(** Every entry of [files'] was in [files], with the same kind and
    content. *)
Definition entries_only_removed files files' : Prop :=
  ∀ q, fs_exists files' q = true →
    fs_exists files q = true
    ∧ fs_isdir files' q = fs_isdir files q
    ∧ fs_read files' q = fs_read files q.

End more_actions.

(** [c] occurs in [s]. *)
Fixpoint contains (c : ascii) (s : string) : bool :=
  match s with
  | EmptyString => false
  | String a s' => bool_decide (a = c) || contains c s'
  end.

(** The reference file system: removal and creation. *)
Module RefFsEdit.

Definition remove (p : path) (m : gmap string node) : option exn * gmap string node :=
  match m !! p with
  | Some (File _) => (None, delete p m)
  | Some Dir => (Some (IsADirectoryError p), m)
  | None => (Some (FileNotFoundError p), m)
  end.

Definition rmtree (p : path) (m : gmap string node) : option exn * gmap string node :=
  match m !! p with
  | Some Dir => (None, RefFs.without p m)
  | Some (File _) => (Some (NotADirectoryError p), m)
  | None => (Some (FileNotFoundError p), m)
  end.

Definition makedirs (p : path) (m : gmap string node) : option exn * gmap string node :=
  if RefFs.exists_ m p then (Some (FileExistsError p), m)
  else if bool_decide (p = "") then (Some (FileNotFoundError p), m)
  else if RefFs.parents_ok p m then (None, <[p := Dir]> (RefFs.with_parents p m))
  else (Some (NotADirectoryError p), m).

End RefFsEdit.

Global Instance ref_fs_edit : FileSystemEdit (gmap string node) := {|
  fs_rmtree := RefFsEdit.rmtree;
  fs_remove := RefFsEdit.remove;
  fs_makedirs := RefFsEdit.makedirs
|}.

(** ** Lemmas on strings and probe names *)

Lemma str_length_app (s1 s2 : string) :
  String.length (s1 +:+ s2) = String.length s1 + String.length s2.
Proof. induction s1 as [|a s1 IH]; simpl; [done|]. by rewrite IH. Qed.

Lemma str_app_inj_r (s1 s2 e : string) : s1 +:+ e = s2 +:+ e → s1 = s2.
Proof.
  revert s2. induction s1 as [|a s1 IH]; intros [|b s2] Heq.
  - done.
  - apply (f_equal String.length) in Heq.
    rewrite !str_length_app in Heq. simpl in Heq. lia.
  - apply (f_equal String.length) in Heq.
    rewrite !str_length_app in Heq. simpl in Heq. lia.
  - injection Heq as -> Heq. f_equal. by apply IH.
Qed.

Lemma copy_name_inj (base ext : string) (n m : nat) :
  copy_name base ext n = copy_name base ext m → n = m.
Proof.
  unfold copy_name. intros Heq.
  apply (inj (String.app base)) in Heq.
  apply (inj (String.app "_copy")) in Heq.
  apply str_app_inj_r in Heq. by apply (inj pretty) in Heq.
Qed.

Lemma copy_name_startswith (base ext : string) (n m : nat) :
  startswith sep (copy_name base ext n) = startswith sep (copy_name base ext m).
Proof. unfold copy_name. by destruct base. Qed.

Lemma join_copy_name_inj (dest_dir base ext : string) (n m : nat) :
  join dest_dir (copy_name base ext n) = join dest_dir (copy_name base ext m) →
  n = m.
Proof.
  unfold join. rewrite (copy_name_startswith base ext n m).
  destruct (startswith sep (copy_name base ext m)).
  { apply copy_name_inj. }
  destruct (bool_decide (dest_dir = "") || endswith sep dest_dir); intros Heq.
  - apply (inj (String.app dest_dir)) in Heq. by apply copy_name_inj in Heq.
  - apply (inj (String.app dest_dir)) in Heq. injection Heq as Heq.
    by apply copy_name_inj in Heq.
Qed.

Section resolver.
Context `{FileSystem Fs}.
Implicit Types (files : Fs) (st : state Fs).

Local Instance probe_path_inj dest_dir base ext :
  Inj (=) (=) (probe_path dest_dir base ext).
Proof. intros n m. apply join_copy_name_inj. Qed.

Lemma while_exists_free fuel files dest_dir base ext p c :
  fs_exists files p = false →
  while_exists fuel files dest_dir base ext p c = Some p.
Proof. intros Hp. destruct fuel; simpl; by rewrite Hp. Qed.

Lemma while_exists_first_free fuel files dest_dir base ext p c n :
  fs_exists files p = true →
  c ≤ n < c + fuel →
  fs_exists files (probe_path dest_dir base ext n) = false →
  (∀ m, c ≤ m < n → fs_exists files (probe_path dest_dir base ext m) = true) →
  while_exists fuel files dest_dir base ext p c
  = Some (probe_path dest_dir base ext n).
Proof.
  revert p c. induction fuel as [|fuel IH]; intros p c Hp Hn Hfree Hbusy.
  { lia. }
  simpl. rewrite Hp. destruct (decide (n = c)) as [->|Hne].
  - by apply while_exists_free.
  - apply IH.
    + apply Hbusy. lia.
    + lia.
    + done.
    + intros m Hm. apply Hbusy. lia.
Qed.

(** Among [length (fs_listing files) + 1] consecutive probes one is free:
    the probes are pairwise distinct and the file system is finite. *)
Lemma some_probe_free files dest_dir base ext c :
  ∃ n, c ≤ n ≤ c + length (fs_listing files)
       ∧ fs_exists files (probe_path dest_dir base ext n) = false.
Proof.
  set (L := length (fs_listing files)).
  set (P := probe_path dest_dir base ext).
  destruct (Forall_Exists_dec (λ n, fs_exists files (P n) = true)
              (λ n, fs_exists files (P n) = false)
              (λ n, Sumbool.sumbool_of_bool (fs_exists files (P n)))
              (seq c (S L))) as [Hall|Hex].
  - exfalso.
    assert (NoDup (P <$> seq c (S L))) as Hnd.
    { apply (NoDup_fmap_2 _), NoDup_seq. }
    assert (P <$> seq c (S L) ⊆+ fs_listing files) as Hsub.
    { apply NoDup_submseteq; [done|]. intros p (n & -> & Hn)%list_elem_of_fmap.
      apply fs_listing_complete. by eapply (proj1 (Forall_forall _ _) Hall). }
    apply submseteq_length in Hsub.
    rewrite length_fmap, length_seq in Hsub. fold L in Hsub. lia.
  - apply Exists_exists in Hex as (n & Hn%elem_of_seq & Hfree).
    exists n. split; [lia|done].
Qed.

(** The first position from [c] on at which a Boolean predicate fails. *)
Lemma least_false (P : nat → bool) (c n : nat) :
  c ≤ n → P n = false →
  ∃ k, c ≤ k ≤ n ∧ P k = false ∧ ∀ m, c ≤ m < k → P m = true.
Proof.
  intros Hle Hn. remember (n - c) as d eqn:Hd. revert c Hle Hd.
  induction d as [|d IH]; intros c Hle Hd.
  - assert (c = n) as -> by lia. exists n. split; [lia|]. split; [done|]. lia.
  - destruct (P c) eqn:Hc.
    + destruct (IH (S c)) as (k & Hk & Hfree & Hbusy); [lia..|].
      exists k. split; [lia|]. split; [done|].
      intros m Hm. destruct (decide (m = c)) as [->|]; [done|]. apply Hbusy. lia.
    + exists c. split; [lia|]. split; [done|]. lia.
Qed.

Lemma first_probe_free files dest_dir base ext c :
  ∃ n, c ≤ n ≤ c + length (fs_listing files)
       ∧ fs_exists files (probe_path dest_dir base ext n) = false
       ∧ ∀ m, c ≤ m < n → fs_exists files (probe_path dest_dir base ext m) = true.
Proof.
  destruct (some_probe_free files dest_dir base ext c) as (n & Hn & Hfree).
  destruct (least_false (λ k, fs_exists files (probe_path dest_dir base ext k)) c n)
    as (k & Hk & Hkfree & Hbusy); [lia|done|].
  exists k. split; [lia|]. done.
Qed.

(** What the collision loop returns, for every bound above the number of
    entries of the file system. *)
Lemma while_exists_enough files dest_dir base ext p c :
  ∃ q, fs_exists files q = false
       ∧ (fs_exists files p = false → q = p)
       ∧ (fs_exists files p = true →
          ∃ n, c ≤ n ∧ q = probe_path dest_dir base ext n
               ∧ ∀ m, c ≤ m < n →
                   fs_exists files (probe_path dest_dir base ext m) = true)
       ∧ ∀ fuel, length (fs_listing files) < fuel →
           while_exists fuel files dest_dir base ext p c = Some q.
Proof.
  destruct (fs_exists files p) eqn:Hp.
  - destruct (first_probe_free files dest_dir base ext c) as (n & Hn & Hfree & Hbusy).
    exists (probe_path dest_dir base ext n). split; [done|]. split; [done|]. split.
    + intros _. exists n. split; [lia|]. done.
    + intros fuel Hfuel. apply while_exists_first_free; [done|lia|done..].
  - exists p. split; [done|]. split; [done|]. split; [done|].
    intros fuel _. by apply while_exists_free.
Qed.

Lemma resolve_dest_enough files dest_dir file_name :
  ∃ q, fs_exists files q = false
       ∧ (fs_exists files (join dest_dir file_name) = false →
          q = join dest_dir file_name)
       ∧ (fs_exists files (join dest_dir file_name) = true →
          ∃ n, 1 ≤ n
               ∧ q = probe_path dest_dir (splitext file_name).1 (splitext file_name).2 n
               ∧ ∀ m, 1 ≤ m < n →
                   fs_exists files
                     (probe_path dest_dir (splitext file_name).1 (splitext file_name).2 m)
                   = true)
       ∧ (∀ fuel, length (fs_listing files) < fuel →
           resolve_dest_bounded fuel files dest_dir file_name = Some q)
       ∧ resolve_dest files dest_dir file_name = q.
Proof.
  destruct (while_exists_enough files dest_dir (splitext file_name).1
              (splitext file_name).2 (join dest_dir file_name) 1)
    as (q & Hq & Hfree & Hbusy & Hfuel).
  assert (∀ fuel, length (fs_listing files) < fuel →
            resolve_dest_bounded fuel files dest_dir file_name = Some q) as Hres.
  { intros fuel Hlt. unfold resolve_dest_bounded.
    destruct (fs_exists files (join dest_dir file_name)) eqn:Hp.
    - destruct (splitext file_name) as [base ext]. by apply Hfuel.
    - by rewrite Hfree. }
  exists q. split; [done|]. split; [done|]. split; [done|]. split; [done|].
  unfold resolve_dest, resolve_fuel. rewrite Hres; [done|lia].
Qed.

Lemma resolve_dest_fresh files dest_dir file_name :
  fs_exists files (resolve_dest files dest_dir file_name) = false.
Proof.
  destruct (resolve_dest_enough files dest_dir file_name) as (q & Hq & _ & _ & _ & ->).
  done.
Qed.

End resolver.

(** ** Lemmas on the paste loop *)

Section paste_lemmas.
Context `{FileSystem Fs}.
Implicit Types (files : Fs) (st : state Fs) (urls : list path).

Lemma same_mark_refl st : same_mark st st.
Proof. by repeat split. Qed.

Lemma same_mark_trans st1 st2 st3 :
  same_mark st1 st2 → same_mark st2 st3 → same_mark st1 st3.
Proof. unfold same_mark. intros (?&?&?&?) (?&?&?&?). repeat split; congruence. Qed.

Lemma entries_preserved_refl files : entries_preserved files files.
Proof. by intros p Hp. Qed.

Lemma entries_preserved_trans files1 files2 files3 :
  entries_preserved files1 files2 → entries_preserved files2 files3 →
  entries_preserved files1 files3.
Proof.
  intros H12 H23 p Hp. destruct (H12 p Hp) as (Hp2 & Hd & Hr).
  destruct (H23 p Hp2) as (Hp3 & Hd' & Hr'). repeat split; congruence.
Qed.

Lemma os_call_same_mark (call : Fs → option exn * Fs) st r st' :
  os_call call st = (r, st') → same_mark st st'.
Proof.
  unfold os_call. destruct (call (fs st)) as [[e|] files];
    intros [= <- <-]; by repeat split.
Qed.

Lemma os_call_fs (call : Fs → option exn * Fs) st r st' :
  os_call call st = (r, st') →
  call (fs st) = (match r with Ok _ => None | Raise e => Some e end, fs st').
Proof.
  unfold os_call. destruct (call (fs st)) as [[e|] files];
    by intros [= <- <-].
Qed.

Lemma copy_to_same_mark src dest st r st' :
  copy_to src dest st = (r, st') → same_mark st st'.
Proof. unfold copy_to. destruct (fs_isdir _ _); apply os_call_same_mark. Qed.

Lemma move_or_copy_same_mark src dest st r st' :
  move_or_copy src dest st = (r, st') → same_mark st st'.
Proof.
  unfold move_or_copy. destruct (is_move _ _);
    [apply os_call_same_mark | apply copy_to_same_mark].
Qed.

Lemma paste_item_unfold dest_dir src st :
  paste_item dest_dir src st
  = move_or_copy src (resolve_dest (fs st) dest_dir (basename src)) st.
Proof. reflexivity. Qed.

Lemma copy_item_unfold dest_dir src st :
  copy_item dest_dir src st
  = copy_to src (resolve_dest (fs st) dest_dir (basename src)) st.
Proof. reflexivity. Qed.

Lemma paste_item_same_mark dest_dir src st r st' :
  paste_item dest_dir src st = (r, st') → same_mark st st'.
Proof. rewrite paste_item_unfold. apply move_or_copy_same_mark. Qed.

Lemma for_each_cons {A} (x : A) xs (body : A → M Fs unit) st :
  for_each (x :: xs) body st
  = match body x st with
    | (Ok _, st') => for_each xs body st'
    | (Raise e, st') => (Raise e, st')
    end.
Proof. reflexivity. Qed.

Lemma for_each_app {A} (xs ys : list A) (body : A → M Fs unit) st :
  for_each (xs ++ ys) body st
  = match for_each xs body st with
    | (Ok _, st') => for_each ys body st'
    | (Raise e, st') => (Raise e, st')
    end.
Proof.
  revert st. induction xs as [|x xs IH]; intros st; [done|].
  rewrite <-app_comm_cons, !for_each_cons.
  destruct (body x st) as [[[]|e] st']; [apply IH|done].
Qed.

Lemma for_each_paste_same_mark dest_dir urls st r st' :
  for_each urls (paste_item dest_dir) st = (r, st') → same_mark st st'.
Proof.
  revert st. induction urls as [|u urls IH]; intros st.
  { intros [= <- <-]. apply same_mark_refl. }
  rewrite for_each_cons.
  destruct (paste_item dest_dir u st) as [[[]|e] st1] eqn:Hu.
  - intros Hrest. eapply same_mark_trans; [by eapply paste_item_same_mark|by apply IH].
  - intros [= <- <-]. by eapply paste_item_same_mark.
Qed.

(** With the cut flag down an item is copied. *)
Lemma paste_item_copies dest_dir src st :
  is_cut_operation st = false →
  paste_item dest_dir src st = copy_item dest_dir src st.
Proof.
  intros Hflag. rewrite paste_item_unfold, copy_item_unfold.
  unfold move_or_copy, is_move. by rewrite Hflag.
Qed.

Lemma for_each_paste_copies dest_dir urls st :
  is_cut_operation st = false →
  for_each urls (paste_item dest_dir) st = for_each urls (copy_item dest_dir) st.
Proof.
  revert st. induction urls as [|u urls IH]; intros st Hflag; [done|].
  rewrite !for_each_cons, <-paste_item_copies by done.
  destruct (paste_item dest_dir u st) as [[[]|e] st1] eqn:Hu; [|done].
  apply IH. apply paste_item_same_mark in Hu as (-> & _). done.
Qed.

Lemma action_paste_copies dest_dir st :
  is_cut_operation st = false →
  action_paste dest_dir st = paste_by_copy dest_dir st.
Proof.
  intros Hflag. unfold action_paste, paste_by_copy.
  destruct (clipboard st) as [urls|]; [|done].
  unfold try_except, paste_block. 
  change ((for_each urls (paste_item dest_dir) ;; reset_after_paste) st)
    with (match for_each urls (paste_item dest_dir) st with
          | (Ok _, st') => reset_after_paste st'
          | (Raise e, st') => (Raise e, st')
          end).
  rewrite <-for_each_paste_copies by done.
  destruct (for_each urls (paste_item dest_dir) st) as [[[]|e] st1] eqn:Hloop; [|done].
  apply for_each_paste_same_mark in Hloop as (Hf & _).
  unfold reset_after_paste. by rewrite Hf, Hflag.
Qed.


Lemma action_paste_unfold dest_dir urls st :
  clipboard st = Some urls →
  action_paste dest_dir st
  = match for_each urls (paste_item dest_dir) st with
    | (Ok _, st') => (reset_after_paste st').2
    | (Raise e, st') => show_message (PasteFailed e) st'
    end.
Proof.
  intros Hclip. unfold action_paste. rewrite Hclip.
  unfold try_except, paste_block.
  change ((for_each urls (paste_item dest_dir) ;; reset_after_paste) st)
    with (match for_each urls (paste_item dest_dir) st with
          | (Ok _, st') => reset_after_paste st'
          | (Raise e, st') => (Raise e, st')
          end).
  destruct (for_each urls (paste_item dest_dir) st) as [[[]|e] st1]; [|done].
  unfold reset_after_paste. by destruct (is_cut_operation st1).
Qed.


Section with_laws.
Context `{!FileSystemLaws Fs}.

Lemma copy_to_preserves src dest st r st' :
  fs_exists (fs st) dest = false →
  copy_to src dest st = (r, st') →
  entries_preserved (fs st) (fs st').
Proof.
  intros Hfree. unfold copy_to. destruct (fs_isdir _ _);
    intros Hcall%os_call_fs p Hp.
  - by eapply copytree_preserves.
  - by eapply copy2_preserves.
Qed.

Lemma copy_item_preserves dest_dir src st r st' :
  copy_item dest_dir src st = (r, st') →
  entries_preserved (fs st) (fs st').
Proof.
  rewrite copy_item_unfold. apply copy_to_preserves, resolve_dest_fresh.
Qed.

Lemma for_each_copy_preserves dest_dir urls st r st' :
  for_each urls (copy_item dest_dir) st = (r, st') →
  entries_preserved (fs st) (fs st').
Proof.
  revert st. induction urls as [|u urls IH]; intros st.
  { intros [= <- <-]. apply entries_preserved_refl. }
  rewrite for_each_cons.
  destruct (copy_item dest_dir u st) as [[[]|e] st1] eqn:Hu.
  - intros Hrest. eapply entries_preserved_trans;
      [by eapply copy_item_preserves|by apply IH].
  - intros [= <- <-]. by eapply copy_item_preserves.
Qed.

Lemma paste_by_copy_preserves dest_dir st :
  entries_preserved (fs st) (fs (paste_by_copy dest_dir st)).
Proof.
  unfold paste_by_copy. destruct (clipboard st) as [urls|];
    [|apply entries_preserved_refl].
  unfold try_except.
  destruct (for_each urls (copy_item dest_dir) st) as [[[]|e] st1] eqn:Hloop;
    simpl; by eapply for_each_copy_preserves.
Qed.


End with_laws.
End paste_lemmas.

(** ** The reference file system obeys the laws *)

Lemma ref_exists_lookup (m : gmap string node) (p : path) :
  RefFs.exists_ m p = true ↔ is_Some (m !! p).
Proof. unfold RefFs.exists_. by rewrite bool_decide_eq_true. Qed.

Lemma ref_same_lookup (m m' : gmap string node) (p : path) :
  m' !! p = m !! p →
  RefFs.exists_ m p = true →
  RefFs.exists_ m' p = true ∧ RefFs.isdir m' p = RefFs.isdir m p
  ∧ RefFs.read m' p = RefFs.read m p.
Proof.
  intros Heq Hp. unfold RefFs.exists_, RefFs.isdir, RefFs.read in *.
  by rewrite Heq.
Qed.

Lemma ref_under_refl (src : path) : RefFs.under src src = true.
Proof. unfold RefFs.under. by rewrite bool_decide_eq_true_2. Qed.

Lemma ref_without_gone (src : path) (m : gmap string node) :
  RefFs.exists_ (RefFs.without src m) src = false.
Proof.
  unfold RefFs.exists_, RefFs.without. apply bool_decide_eq_false.
  intros [n Hn]. apply map_lookup_filter_Some in Hn as [_ Hn].
  simpl in Hn. by rewrite ref_under_refl in Hn.
Qed.

Global Instance ref_fs_laws : FileSystemLaws (gmap string node).
Proof.
  split.
  - intros src dst m e m' p Hfree. simpl. unfold RefFs.copy2.
    destruct (m !! src) as [[c|]|]; [|by intros [= <- <-]..].
    destruct (RefFs.isdir m (dirname dst)); intros [= <- <-]; [|done].
    intros Hp. apply ref_same_lookup; [|done].
    apply lookup_insert_ne. intros ->. simpl in Hfree. congruence.
  - intros src dst m e m' p _. simpl. unfold RefFs.copytree.
    destruct (m !! src) as [[c|]|]; [by intros [= <- <-]| |by intros [= <- <-]].
    destruct (RefFs.exists_ m dst); [by intros [= <- <-]|].
    destruct (RefFs.parents_ok dst m); [|by intros [= <- <-]].
    destruct (_ && _); intros [= <- <-]; [done|].
    intros Hp. apply ref_same_lookup; [|done].
    apply ref_exists_lookup in Hp. unfold RefFs.with_parents.
    rewrite lookup_union_l'; [by apply lookup_union_l'|].
    by rewrite lookup_union_l'.
  - intros src dst m m' _. simpl. unfold RefFs.move.
    destruct (m !! src) as [n|]; [|done].
    destruct (RefFs.exists_ m dst); [done|].
    destruct n as [c|]; destruct (RefFs.under src dst); try done.
    + destruct (RefFs.isdir m (dirname dst)); intros [= <-].
      apply ref_without_gone.
    + destruct (RefFs.parents_ok dst m); intros [= <-].
      apply ref_without_gone.
Qed.

(** ** Lemmas on paths *)

Lemma contains_app c (s1 s2 : string) :
  contains c (s1 +:+ s2) = contains c s1 || contains c s2.
Proof.
  induction s1 as [|a s1 IH]; [done|].
  change (contains c (String a (s1 +:+ s2))
          = (bool_decide (a = c) || contains c s1) || contains c s2).
  simpl. by rewrite IH, orb_assoc.
Qed.

Lemma rfind_ge c (s : string) : (-1 ≤ rfind c s)%Z.
Proof.
  induction s as [|a s IH]; simpl; [lia|].
  repeat case_decide; lia.
Qed.

Lemma rfind_not_contains c (s : string) :
  contains c s = false ↔ rfind c s = (-1)%Z.
Proof.
  induction s as [|a s IH]; simpl; [done|].
  pose proof (rfind_ge c s).
  rewrite orb_false_iff, bool_decide_eq_false, IH.
  repeat case_decide; split; intros; try lia; try tauto.
  split; [done|lia].
Qed.

Lemma rfind_app_plain c (s1 s2 : string) :
  contains c s2 = false → rfind c (s1 +:+ s2) = rfind c s1.
Proof.
  intros Hs2. induction s1 as [|a s1 IH].
  - by apply rfind_not_contains.
  - change (rfind c (String a (s1 +:+ s2)) = rfind c (String a s1)).
    simpl. by rewrite IH.
Qed.

Lemma rfind_app_sep c (s1 s2 : string) :
  contains c s2 = false →
  rfind c (s1 +:+ String c s2) = Z.of_nat (String.length s1).
Proof.
  intros Hs2%rfind_not_contains. induction s1 as [|a s1 IH].
  - change (rfind c (String c s2) = 0%Z). simpl. rewrite Hs2.
    case_decide; [lia|]. by case_decide.
  - change (rfind c (String a (s1 +:+ String c s2))
            = Z.of_nat (S (String.length s1))).
    simpl rfind. rewrite IH. case_decide; lia.
Qed.

Lemma str_drop_app (s1 s2 : string) :
  str_drop (String.length s1) (s1 +:+ s2) = s2.
Proof. induction s1 as [|a s1 IH]; [by destruct s2|done]. Qed.

Lemma str_take_app (s1 s2 : string) :
  str_take (String.length s1) (s1 +:+ s2) = s1.
Proof.
  induction s1 as [|a s1 IH]; [by destruct s2|].
  change (String a (str_take (String.length s1) (s1 +:+ s2)) = String a s1).
  by rewrite IH.
Qed.

Lemma str_take_drop n (s : string) : str_take n s +:+ str_drop n s = s.
Proof.
  revert s. induction n as [|n IH]; intros [|a s]; try done.
  change (String a (str_take n s +:+ str_drop n s) = String a s).
  by rewrite IH.
Qed.

Lemma str_app_empty_r (s : string) : s +:+ "" = s.
Proof.
  induction s as [|a s IH]; [done|].
  change (String a (s +:+ "") = String a s). by rewrite IH.
Qed.

Lemma str_app_assoc (s1 s2 s3 : string) : (s1 +:+ s2) +:+ s3 = s1 +:+ s2 +:+ s3.
Proof.
  induction s1 as [|a s1 IH]; [done|].
  change (String a ((s1 +:+ s2) +:+ s3) = String a (s1 +:+ s2 +:+ s3)).
  by rewrite IH.
Qed.

(** The base name holds no separator. *)
Lemma basename_no_sep (p : path) : contains sep (basename p) = false.
Proof.
  unfold basename. induction p as [|a p IH]; [done|].
  pose proof (rfind_ge sep p) as Hge. simpl rfind.
  case_decide as Hr.
  - replace (Z.to_nat (1 + rfind sep p + 1)) with (S (Z.to_nat (rfind sep p + 1)))
      by lia.
    exact IH.
  - assert (rfind sep p = (-1)%Z) as Hnone by lia.
    apply rfind_not_contains in Hnone.
    case_decide as Ha; simpl; [done|].
    rewrite Hnone. by rewrite bool_decide_eq_false_2.
Qed.

Lemma splitext_app (p : path) : (splitext p).1 +:+ (splitext p).2 = p.
Proof.
  unfold splitext. case_decide; [|apply str_app_empty_r].
  destruct (has_non_dot _); [apply str_take_drop|apply str_app_empty_r].
Qed.

Lemma pretty_N_go_no_sep (x : N) (s : string) :
  contains sep s = false → contains sep (pretty_N_go x s) = false.
Proof.
  revert s. induction (N.lt_wf_0 x) as [x _ IH]; intros s Hs.
  assert (x = 0 ∨ 0 < x)%N as [->|Hpos] by lia.
  - by rewrite pretty_N_go_0.
  - rewrite pretty_N_go_step by done. apply IH.
    { by apply N.div_lt. }
    simpl. rewrite Hs, orb_false_r. apply bool_decide_eq_false.
    unfold pretty_N_char, sep. by repeat case_match.
Qed.

Lemma str_no_sep (n : nat) : contains sep (str n) = false.
Proof.
  unfold str, pretty, pretty_nat, pretty, pretty_N.
  case_decide; [done|]. by apply pretty_N_go_no_sep.
Qed.

Lemma copy_name_no_sep (file_name : string) (n : nat) :
  contains sep file_name = false →
  contains sep (copy_name (splitext file_name).1 (splitext file_name).2 n) = false.
Proof.
  intros Hname. rewrite <-(splitext_app file_name), contains_app in Hname.
  apply orb_false_iff in Hname as [Hbase Hext].
  unfold copy_name. rewrite !contains_app, Hbase, Hext, str_no_sep. done.
Qed.

Lemma startswith_no_sep (s : string) : contains sep s = false → startswith sep s = false.
Proof. destruct s as [|a s]; [done|]. simpl. by intros [? _]%orb_false_iff. Qed.

Lemma endswith_app_sep (s : string) : endswith sep (s +:+ String sep "") = true.
Proof.
  induction s as [|a s IH]; [done|].
  change (endswith sep (String a (s +:+ String sep "")) = true).
  simpl. destruct (s +:+ String sep "") eqn:Heq; [by destruct s|done].
Qed.

(** [join dest_dir name] is [prefix ++ name], where the prefix is empty or
    ends with the separator. *)
Lemma join_no_sep (a name : string) :
  contains sep name = false →
  ∃ pre, join a name = pre +:+ name
         ∧ (pre = "" ∨ ∃ pre', pre = pre' +:+ String sep "").
Proof.
  intros Hname. unfold join. rewrite (startswith_no_sep _ Hname).
  destruct (bool_decide (a = "")) eqn:Ha; simpl.
  { apply bool_decide_eq_true in Ha as ->. exists "". by split; [|left]. }
  destruct (endswith sep a) eqn:Hend.
  - exists a. split; [done|]. right.
    clear Ha. induction a as [|x a IH]; [done|].
    destruct a as [|y a].
    + simpl in Hend. apply bool_decide_eq_true in Hend as ->. by exists "".
    + destruct IH as [pre' Hpre']; [done|]. exists (String x pre').
      change (String x (String y a) = String x (pre' +:+ String sep "")).
      by rewrite Hpre'.
  - exists (a +:+ String sep ""). split; [|right; by exists a].
    by rewrite str_app_assoc.
Qed.

Lemma basename_app_no_sep (pre name : string) :
  (pre = "" ∨ ∃ pre', pre = pre' +:+ String sep "") →
  contains sep name = false →
  basename (pre +:+ name) = name.
Proof.
  intros [->|[pre' ->]] Hname; unfold basename.
  - apply rfind_not_contains in Hname. change ("" +:+ name) with name.
    by rewrite Hname.
  - rewrite str_app_assoc. change (String sep "" +:+ name) with (String sep name).
    rewrite rfind_app_sep by done.
    replace (Z.to_nat (Z.of_nat (String.length pre') + 1))
      with (String.length (pre' +:+ String sep "")).
    + change (String sep name) with (String sep "" +:+ name).
      rewrite <-str_app_assoc. apply str_drop_app.
    + rewrite str_length_app. simpl. lia.
Qed.

Lemma basename_join (a name : string) :
  contains sep name = false → basename (join a name) = name.
Proof.
  intros Hname. destruct (join_no_sep a name Hname) as (pre & -> & Hpre).
  by apply basename_app_no_sep.
Qed.

Lemma rstrip_not_endswith c (s : string) :
  rstrip c s ≠ "" → endswith c (rstrip c s) = false.
Proof.
  induction s as [|a s IH]; [done|]. simpl.
  destruct (rstrip c s) as [|b r] eqn:Hr.
  - case_decide; [done|]. intros _. simpl. by apply bool_decide_eq_false.
  - intros _. apply IH. done.
Qed.

Lemma rstrip_id c (s : string) : endswith c s = false → rstrip c s = s.
Proof.
  induction s as [|a s IH]; [done|]. simpl.
  destruct s as [|b s].
  - intros Ha%bool_decide_eq_false. simpl. by case_decide.
  - intros Hend. by rewrite IH.
Qed.

Lemma rstrip_app_sep c (s : string) : rstrip c (s +:+ String c "") = rstrip c s.
Proof.
  induction s as [|a s IH].
  - change (rstrip c (String c "") = ""). simpl. by case_decide.
  - change (rstrip c (String a (s +:+ String c "")) = rstrip c (String a s)).
    simpl. by rewrite IH.
Qed.

Lemma rstrip_empty_endswith c (s : string) :
  rstrip c s = "" → s ≠ "" → endswith c s = true.
Proof.
  induction s as [|a s IH]; [done|]. simpl.
  destruct (rstrip c s) as [|b r] eqn:Hr; [|done].
  case_decide as Ha; [|done]. intros _ _. destruct s as [|b s].
  - by apply bool_decide_eq_true.
  - by apply IH.
Qed.

Lemma rfind_endswith c (s : string) :
  endswith c s = true → rfind c s = (Z.of_nat (String.length s) - 1)%Z.
Proof.
  induction s as [|a s IH]; [done|]. destruct s as [|b s].
  - simpl. intros Ha%bool_decide_eq_true. subst a.
    by case_decide.
  - intros Hend. specialize (IH Hend).
    change (rfind c (String a (String b s)))
      with (let r := rfind c (String b s) in
            if decide (0 ≤ r)%Z then (1 + r)%Z
            else if decide (a = c) then 0%Z else (-1)%Z).
    cbv zeta. rewrite IH. simpl String.length. case_decide; lia.
Qed.

(** The directory part of a path is empty, made of separators only, or does
    not end with a separator. *)
Lemma dirname_shape (p : path) :
  rstrip sep (dirname p) = "" ∨ endswith sep (dirname p) = false.
Proof.
  unfold dirname.
  destruct (rstrip sep (str_take _ p)) as [|a r] eqn:Hr; [by left|].
  right. rewrite <-Hr. apply rstrip_not_endswith. by rewrite Hr.
Qed.

Lemma dirname_join (d name : string) :
  rstrip sep d = "" ∨ endswith sep d = false →
  contains sep name = false →
  dirname (join d name) = d.
Proof.
  intros Hd Hname. unfold join. rewrite (startswith_no_sep _ Hname).
  destruct (decide (d = "")) as [->|Hne].
  { simpl. change ("" +:+ name) with name. unfold dirname.
    apply rfind_not_contains in Hname. by rewrite Hname. }
  rewrite bool_decide_eq_false_2 by done. simpl.
  destruct (endswith sep d) eqn:Hend.
  - destruct Hd as [Hd|?]; [|done].
    unfold dirname. rewrite rfind_app_plain, rfind_endswith by done.
    replace (Z.to_nat (Z.of_nat (String.length d) - 1 + 1)) with (String.length d)
      by lia.
    by rewrite str_take_app, Hd.
  - unfold dirname. rewrite rfind_app_sep by done.
    replace (Z.to_nat (Z.of_nat (String.length d) + 1))
      with (String.length (d +:+ String sep "")).
    2:{ rewrite str_length_app. simpl. lia. }
    change (String sep name) with (String sep "" +:+ name).
    rewrite <-str_app_assoc, str_take_app, rstrip_app_sep, rstrip_id by done.
    by destruct d.
Qed.

(** ** Lemmas on deletion and folder creation *)

Section edit_lemmas.
Context `{FileSystemEdit Fs}.
Implicit Types (files : Fs) (st : state Fs) (paths : list path).

Lemma os_call_keeps_state (call : Fs → option exn * Fs) st r :
  call (fs st) = (r, fs st) →
  os_call call st = (match r with None => Ok () | Some e => Raise e end, st).
Proof. unfold os_call. intros ->. by destruct st, r. Qed.

Lemma entries_only_removed_refl files : entries_only_removed files files.
Proof. by intros q Hq. Qed.

Lemma entries_only_removed_trans files1 files2 files3 :
  entries_only_removed files1 files2 → entries_only_removed files2 files3 →
  entries_only_removed files1 files3.
Proof.
  intros H12 H23 q Hq. destruct (H23 q Hq) as (Hq2 & Hd & Hr).
  destruct (H12 q Hq2) as (Hq1 & Hd' & Hr'). repeat split; congruence.
Qed.

Lemma entries_only_removed_absent files files' p :
  entries_only_removed files files' →
  fs_exists files p = false → fs_exists files' p = false.
Proof.
  intros Hrem Hp. destruct (fs_exists files' p) eqn:Hp'; [|done].
  destruct (Hrem p Hp') as (Hp0 & _). congruence.
Qed.

Lemma entries_preserved_absent files files' p :
  entries_preserved files files' →
  fs_exists files' p = false → fs_exists files p = false.
Proof.
  intros Hkept Hp'. destruct (fs_exists files p) eqn:Hp; [|done].
  destruct (Hkept p Hp) as (Hp1 & _). congruence.
Qed.

Lemma delete_item_same_mark p st r st' :
  delete_item p st = (r, st') → same_mark st st'.
Proof. unfold delete_item. destruct (fs_isdir _ _); apply os_call_same_mark. Qed.

Lemma for_each_delete_same_mark paths st r st' :
  for_each paths delete_item st = (r, st') → same_mark st st'.
Proof.
  revert st. induction paths as [|p paths IH]; intros st.
  { intros [= <- <-]. apply same_mark_refl. }
  rewrite for_each_cons.
  destruct (delete_item p st) as [[[]|e] st1] eqn:Hp.
  - intros Hrest. eapply same_mark_trans; [by eapply delete_item_same_mark|by apply IH].
  - intros [= <- <-]. by eapply delete_item_same_mark.
Qed.

Lemma action_delete_unfold p paths st :
  action_delete (p :: paths) Yes st
  = match for_each (p :: paths) delete_item st with
    | (Ok _, st') => (st', None)
    | (Raise e, st') => (st', Some e)
    end.
Proof. reflexivity. Qed.

Lemma action_delete_same_mark paths answer st :
  same_mark st (action_delete paths answer st).1.
Proof.
  destruct paths as [|p paths], answer; try apply same_mark_refl.
  rewrite action_delete_unfold.
  destruct (for_each (p :: paths) delete_item st) as [[[]|e] st'] eqn:Hloop;
    by eapply for_each_delete_same_mark.
Qed.

Section with_edit_laws.
Context `{!FileSystemEditLaws Fs}.

Lemma delete_item_only_removes p st r st' :
  delete_item p st = (r, st') → entries_only_removed (fs st) (fs st').
Proof.
  unfold delete_item. destruct (fs_isdir _ _); intros Hcall%os_call_fs q Hq.
  - by eapply rmtree_only_removes.
  - by eapply remove_only_removes.
Qed.

Lemma delete_item_gone p st st' :
  delete_item p st = (Ok (), st') → fs_exists (fs st') p = false.
Proof.
  unfold delete_item. destruct (fs_isdir _ _); intros Hcall%os_call_fs.
  - by eapply rmtree_gone.
  - by eapply remove_gone.
Qed.

Lemma for_each_delete_only_removes paths st r st' :
  for_each paths delete_item st = (r, st') →
  entries_only_removed (fs st) (fs st').
Proof.
  revert st. induction paths as [|p paths IH]; intros st.
  { intros [= <- <-]. apply entries_only_removed_refl. }
  rewrite for_each_cons.
  destruct (delete_item p st) as [[[]|e] st1] eqn:Hp.
  - intros Hrest. eapply entries_only_removed_trans;
      [by eapply delete_item_only_removes|by apply IH].
  - intros [= <- <-]. by eapply delete_item_only_removes.
Qed.

Lemma for_each_delete_all_gone paths st st' :
  for_each paths delete_item st = (Ok (), st') →
  ∀ p, p ∈ paths → fs_exists (fs st') p = false.
Proof.
  revert st. induction paths as [|x paths IH]; intros st Hloop p Hin.
  { by apply elem_of_nil in Hin. }
  rewrite for_each_cons in Hloop.
  destruct (delete_item x st) as [[[]|e] st1] eqn:Hx; [|done].
  apply elem_of_cons in Hin as [->|Hin]; [|by eapply IH].
  eapply entries_only_removed_absent.
  - by eapply for_each_delete_only_removes.
  - by eapply delete_item_gone.
Qed.

Lemma action_delete_all_gone paths st st' :
  action_delete paths Yes st = (st', None) →
  ∀ p, p ∈ paths → fs_exists (fs st') p = false.
Proof.
  intros Hdel p Hin. destruct paths as [|x paths]; [by apply elem_of_nil in Hin|].
  rewrite action_delete_unfold in Hdel.
  destruct (for_each (x :: paths) delete_item st) as [[[]|e] st1] eqn:Hloop;
    [|done].
  injection Hdel as <-. by eapply for_each_delete_all_gone.
Qed.

End with_edit_laws.
End edit_lemmas.

(** ** The reference file system obeys the further laws *)

Lemma ref_not_exists_lookup (m : gmap string node) (p : path) :
  RefFs.exists_ m p = false ↔ m !! p = None.
Proof.
  unfold RefFs.exists_. rewrite bool_decide_eq_false, <-eq_None_not_Some. done.
Qed.

Lemma ref_same_lookup_back (m m' : gmap string node) (q : path) :
  m' !! q = m !! q →
  RefFs.exists_ m' q = true →
  RefFs.exists_ m q = true ∧ RefFs.isdir m' q = RefFs.isdir m q
  ∧ RefFs.read m' q = RefFs.read m q.
Proof.
  intros Heq Hq. unfold RefFs.exists_, RefFs.isdir, RefFs.read in *.
  by rewrite <-Heq.
Qed.

Lemma ref_without_lookup (src q : path) (m : gmap string node) :
  RefFs.exists_ (RefFs.without src m) q = true →
  RefFs.without src m !! q = m !! q.
Proof.
  intros [n Hn]%ref_exists_lookup. rewrite Hn. symmetry.
  by apply map_lookup_filter_Some in Hn as [Hn _].
Qed.

Lemma str_drop_all (s : string) : str_drop (String.length s) s = "".
Proof. induction s as [|a s IH]; done. Qed.

Lemma ref_rebased_root (src dst : path) (m : gmap string node) :
  is_Some (m !! src) → is_Some (RefFs.rebased src dst m !! dst).
Proof.
  intros [n Hn]. unfold RefFs.rebased.
  apply not_eq_None_Some. rewrite <-not_elem_of_list_to_map.
  intros Hnot. apply Hnot. rewrite <-list_fmap_compose.
  apply list_elem_of_fmap. exists (src, n). split.
  - simpl. by rewrite str_drop_all, str_app_empty_r.
  - apply elem_of_map_to_list, map_lookup_filter_Some. split; [done|].
    apply ref_under_refl.
Qed.

Lemma ref_without_keeps (src q : path) (m : gmap string node) :
  RefFs.under src q = false → is_Some (m !! q) →
  RefFs.exists_ (RefFs.without src m) q = true.
Proof.
  intros Hout [n Hn]. apply ref_exists_lookup. exists n.
  by apply map_lookup_filter_Some.
Qed.

Global Instance ref_fs_edit_laws : FileSystemEditLaws (gmap string node).
Proof.
  split.
  - intros p m m'. simpl. unfold RefFsEdit.remove.
    destruct (m !! p) as [[c|]|]; [|done..]. intros [= <-].
    apply ref_not_exists_lookup, lookup_delete_eq.
  - intros p m m'. simpl. unfold RefFsEdit.rmtree.
    destruct (m !! p) as [[c|]|]; [done| |done]. intros [= <-].
    apply ref_without_gone.
  - intros p m e m' q. simpl. unfold RefFsEdit.remove.
    destruct (m !! p) as [[c|]|] eqn:Hp; intros [= <- <-]; [|done..].
    intros Hq. apply ref_same_lookup_back; [|done].
    apply lookup_delete_ne. intros ->.
    apply ref_exists_lookup in Hq as [n Hn]. by rewrite lookup_delete_eq in Hn.
  - intros p m e m' q. simpl. unfold RefFsEdit.rmtree.
    destruct (m !! p) as [[c|]|] eqn:Hp; intros [= <- <-]; [done| |done].
    intros Hq. apply ref_same_lookup_back; [|done]. by apply ref_without_lookup.
  - intros p m e m'. simpl. unfold RefFsEdit.makedirs.
    destruct (RefFs.exists_ m p) eqn:Hp; [by intros [= <- <-] q Hq|].
    case_bool_decide; [by intros [= <- <-] q Hq|].
    destruct (RefFs.parents_ok p m); intros [= <- <-] q Hq; [|done].
    apply ref_same_lookup; [|done].
    rewrite lookup_insert_ne by (intros ->; simpl in *; congruence).
    apply lookup_union_l'. by apply ref_exists_lookup.
  - intros p m m'. simpl. unfold RefFsEdit.makedirs.
    destruct (RefFs.exists_ m p); [done|]. case_bool_decide; [done|].
    destruct (RefFs.parents_ok p m); intros [= <-].
    unfold RefFs.isdir. apply bool_decide_eq_true, lookup_insert_eq.
  - intros p m Hp. simpl in *. unfold RefFsEdit.makedirs. by rewrite Hp.
Qed.

Global Instance ref_fs_paste_laws : FileSystemPasteLaws (gmap string node).
Proof.
  split.
  - intros src dst m m' _. simpl. unfold RefFs.copy2.
    destruct (m !! src) as [[c|]|] eqn:Hsrc; [|done..].
    destruct (RefFs.isdir m (dirname dst)); intros [= <-].
    unfold RefFs.exists_, RefFs.read.
    rewrite lookup_insert_eq, Hsrc. split; [|done].
    by apply bool_decide_eq_true.
  - intros src dst m m' _. simpl. unfold RefFs.copytree.
    destruct (m !! src) as [[c|]|] eqn:Hsrc; [done| |done].
    destruct (RefFs.exists_ m dst); [done|].
    destruct (RefFs.parents_ok dst m); [|done].
    destruct (_ && _); intros [= <-].
    apply ref_exists_lookup, lookup_union_is_Some. right.
    apply ref_rebased_root. by rewrite Hsrc.
  - intros src dst m m' _. simpl. unfold RefFs.move.
    destruct (m !! src) as [n|] eqn:Hsrc; [|done].
    destruct (RefFs.exists_ m dst); [done|].
    destruct n as [c|]; destruct (RefFs.under src dst) eqn:Hout; try done.
    + destruct (RefFs.isdir m (dirname dst)); intros [= <-].
      apply ref_without_keeps; [done|]. apply lookup_union_is_Some. right.
      apply ref_rebased_root. by rewrite Hsrc.
    + destruct (RefFs.parents_ok dst m); intros [= <-].
      apply ref_without_keeps; [done|]. apply lookup_union_is_Some. right.
      apply ref_rebased_root. by rewrite Hsrc.
  - intros src dst m Hsrc. simpl in *. unfold RefFs.move.
    apply ref_not_exists_lookup in Hsrc. by rewrite Hsrc.
Qed.

(** ** Lemmas on what a paste creates *)

Section paste_result_lemmas.
Context `{FileSystemLaws Fs} `{!FileSystemPasteLaws Fs}.
Implicit Types (files : Fs) (st : state Fs) (urls : list path).

Lemma copy_item_creates dest_dir src st st1 :
  copy_item dest_dir src st = (Ok (), st1) →
  fs_exists (fs st1) (resolve_dest (fs st) dest_dir (basename src)) = true
  ∧ (fs_isdir (fs st) src = false →
     fs_read (fs st1) (resolve_dest (fs st) dest_dir (basename src))
     = fs_read (fs st) src).
Proof.
  rewrite copy_item_unfold. unfold copy_to.
  pose proof (resolve_dest_fresh (fs st) dest_dir (basename src)) as Hfresh.
  destruct (fs_isdir (fs st) src); intros Hcall%os_call_fs.
  - split; [|done]. by eapply copytree_creates.
  - destruct (copy2_creates _ _ _ _ Hfresh Hcall) as [Hex Hread]. by split.
Qed.

Lemma for_each_copy_creates dest_dir urls st st' :
  for_each urls (copy_item dest_dir) st = (Ok (), st') →
  ∀ src, src ∈ urls →
    ∃ dst, fs_exists (fs st) dst = false
      ∧ fs_exists (fs st') dst = true
      ∧ (fs_exists (fs st) src = true → fs_isdir (fs st) src = false →
         fs_read (fs st') dst = fs_read (fs st) src).
Proof.
  revert st. induction urls as [|x urls IH]; intros st Hloop src Hin.
  { by apply elem_of_nil in Hin. }
  rewrite for_each_cons in Hloop.
  destruct (copy_item dest_dir x st) as [[[]|e] st1] eqn:Hx; [|done].
  pose proof (copy_item_preserves _ _ _ _ _ Hx) as Hkept1.
  pose proof (for_each_copy_preserves _ _ _ _ _ Hloop) as Hkept2.
  apply elem_of_cons in Hin as [->|Hin].
  - exists (resolve_dest (fs st) dest_dir (basename x)).
    destruct (copy_item_creates _ _ _ _ Hx) as [Hex Hread].
    destruct (Hkept2 _ Hex) as (Hex' & _ & Hread').
    split; [apply resolve_dest_fresh|]. split; [done|].
    intros _ Hfile. rewrite Hread'. by apply Hread.
  - destruct (IH st1 Hloop src Hin) as (dst & Hfresh & Hex & Hread).
    exists dst. split; [by eapply entries_preserved_absent|]. split; [done|].
    intros Hsrc Hfile. destruct (Hkept1 _ Hsrc) as (Hsrc1 & Hdir1 & Hread1).
    rewrite Hread; [done|done|congruence].
Qed.

End paste_result_lemmas.

Section resolve_lemmas.
Context `{FileSystem Fs}.
Implicit Types (files : Fs).

Lemma resolve_dest_in_dest_dir files dest_dir file_name :
  contains sep file_name = false →
  ∃ name, contains sep name = false
          ∧ resolve_dest files dest_dir file_name = join dest_dir name.
Proof.
  intros Hname.
  destruct (resolve_dest_enough files dest_dir file_name)
    as (q & _ & Hfree & Hbusy & _ & ->).
  destruct (fs_exists files (join dest_dir file_name)) eqn:Htaken.
  - destruct (Hbusy eq_refl) as (n & _ & -> & _).
    eexists. split; [|done]. by apply copy_name_no_sep.
  - exists file_name. split; [done|]. by apply Hfree.
Qed.

End resolve_lemmas.

(** ** The claims

    The theorems hold for every implementation of the operating-system
    layer; the scenarios are evaluated on the reference file system. *)

Import Scenario.

(** *** C1: a failing item and the rest of the batch *)

(** C1 (amended). A paste batch runs its sources in order up to the first
    item that raises: when the items of [pre] are pasted and the next item
    [x] raises [e], the call ends there. The state is the one the failing
    call left, with one error box for [e] added; no item of [post] is
    attempted, and the exception does not leave [action_paste]. *)
Theorem paste_stops_at_first_failure `{FileSystem Fs} (dest_dir : path)
    (pre : list path) (x : path) (post : list path) (st st1 st2 : state Fs)
    (e : exn) :
  clipboard st = Some (pre ++ x :: post) →
  for_each pre (paste_item dest_dir) st = (Ok (), st1) →
  paste_item dest_dir x st1 = (Raise e, st2) →
  action_paste dest_dir st = show_message (PasteFailed e) st2.
Proof.
  intros Hclip Hpre Hx. rewrite (action_paste_unfold _ _ _ Hclip).
  rewrite for_each_app, Hpre, for_each_cons, Hx. done.
Qed.

(** The theorem on the three-file batch whose second file is gone. *)
Lemma paste_stops_at_first_failure_witness :
  action_paste "/dst" copied_then_b_deleted
  = show_message (PasteFailed (FileNotFoundError "/src/b.txt"))
      (for_each ["/src/a.txt"] (paste_item "/dst") copied_then_b_deleted).2.
Proof.
  apply (paste_stops_at_first_failure "/dst" ["/src/a.txt"] "/src/b.txt"
           ["/src/c.txt"] copied_then_b_deleted
           (for_each ["/src/a.txt"] (paste_item "/dst") copied_then_b_deleted).2
           (for_each ["/src/a.txt"] (paste_item "/dst") copied_then_b_deleted).2
           (FileNotFoundError "/src/b.txt"));
    vm_compute; reflexivity.
Defined.

(** C1, as stated, fails: three files are marked for copy and [b.txt] is
    deleted before the paste. The batch as the specification words it
    reports success, not found, success and pastes [c.txt]; the program
    pastes [a.txt], shows one error box and never attempts [c.txt]. *)
Lemma paste_batch_aborts_on_deleted_item :
  (spec_paste "/dst" batch copied_then_b_deleted).1
  = [("/src/a.txt", None);
     ("/src/b.txt", Some (FileNotFoundError "/src/b.txt"));
     ("/src/c.txt", None)]
  ∧ fs_exists (fs (spec_paste "/dst" batch copied_then_b_deleted).2) "/dst/c.txt" = true
  ∧ clipboard copied_then_b_deleted = Some batch
  ∧ fs_exists (fs (action_paste "/dst" copied_then_b_deleted)) "/dst/a.txt" = true
  ∧ fs_exists (fs (action_paste "/dst" copied_then_b_deleted)) "/dst/c.txt" = false
  ∧ fs_exists (fs (action_paste "/dst" copied_then_b_deleted)) "/src/c.txt" = true
  ∧ messages (action_paste "/dst" copied_then_b_deleted)
    = [PasteFailed (FileNotFoundError "/src/b.txt")].
Proof. vm_compute. repeat split. Qed.

(** *** C2: the paste and a mark replaced before it

    C2 speaks of a paste request that is built before a mark is replaced and
    carried out after it. The program has no such request: [action_paste]
    reads the clipboard's URLs when it is called and runs its loop at once,
    and no other action runs in between, so a request built before a
    replacement and executed after it is not a run of this program. C2 is
    therefore not stated here. What follows records what the program does
    when the paste is called after the replacement. *)

(** After a cut mark on [ab] has been replaced by a copy mark on a
    non-empty [c], the clipboard holds [c], a paste is the paste of [c] by
    copies, with the flag down the loop takes the copy branch for every
    source, and nothing is moved: every entry of the file system is still
    in place after the paste. *)
Theorem paste_follows_live_mark `{FileSystemLaws Fs} (dest_dir : path)
    (ab c : list path) (st : state Fs) :
  c ≠ [] →
  let st2 := action_copy c (action_cut ab st) in
  clipboard st2 = Some c
  ∧ action_paste dest_dir st2 = paste_by_copy dest_dir st2
  ∧ (∀ urls, for_each urls (paste_item dest_dir) st2
             = for_each urls (copy_item dest_dir) st2)
  ∧ entries_preserved (fs st) (fs (action_paste dest_dir st2)).
Proof.
  intros Hne. destruct c as [|p c]; [done|]. simpl.
  split; [done|]. split; [by apply action_paste_copies|]. split.
  - intros urls. by apply for_each_paste_copies.
  - rewrite action_paste_copies by done.
    eapply entries_preserved_trans; [|apply paste_by_copy_preserves].
    simpl. destruct ab; apply entries_preserved_refl.
Qed.

(** The theorem on a cut of [a.txt] and [b.txt] replaced by a copy mark on
    [c.txt]. *)
Lemma paste_follows_live_mark_witness :
  clipboard (action_copy ["/src/c.txt"]
               (action_cut ["/src/a.txt"; "/src/b.txt"] (init None three_files)))
  = Some ["/src/c.txt"]
  ∧ entries_preserved three_files
      (fs (action_paste "/dst"
             (action_copy ["/src/c.txt"]
                (action_cut ["/src/a.txt"; "/src/b.txt"] (init None three_files))))).
Proof.
  destruct (paste_follows_live_mark "/dst" ["/src/a.txt"; "/src/b.txt"]
              ["/src/c.txt"] (init None three_files))
    as (Hclip & _ & _ & Hkept); [discriminate|].
  split; [exact Hclip|exact Hkept].
Defined.

(** [a.txt] and [b.txt] are cut, then [c.txt] is marked for copy, then the
    paste is called: it copies [c.txt] and leaves [a.txt] and [b.txt] where
    they were. *)
Example paste_after_replaced_mark_ex :
  let st3 := action_paste "/dst"
               (action_copy ["/src/c.txt"]
                  (action_cut ["/src/a.txt"; "/src/b.txt"] (init None three_files))) in
  fs_exists (fs st3) "/dst/c.txt" = true
  ∧ fs_exists (fs st3) "/src/c.txt" = true
  ∧ fs_exists (fs st3) "/src/a.txt" = true
  ∧ fs_exists (fs st3) "/src/b.txt" = true
  ∧ fs_exists (fs st3) "/dst/a.txt" = false
  ∧ fs_exists (fs st3) "/dst/b.txt" = false.
Proof. vm_compute. repeat split. Qed.

(** *** C3: the extension split and directories *)

(** C3 (amended). The extension split is applied to every colliding name,
    whether the pasted item is a file or a directory: for a directory
    source whose name is taken in the destination, the paste goes to
    [{base}_copy{n}{ext}] with [(base, ext) = os.path.splitext(name)], so
    the suffix is put before the last dot of the directory's name. *)
Theorem directory_name_is_split_too `{FileSystem Fs} (dest_dir src : path)
    (st : state Fs) :
  fs_isdir (fs st) src = true →
  fs_exists (fs st) (join dest_dir (basename src)) = true →
  ∃ n, 1 ≤ n
    ∧ resolve_dest (fs st) dest_dir (basename src)
      = join dest_dir
          ((splitext (basename src)).1 +:+ "_copy" +:+ str n
             +:+ (splitext (basename src)).2)
    ∧ paste_item dest_dir src st
      = move_or_copy src
          (join dest_dir
             ((splitext (basename src)).1 +:+ "_copy" +:+ str n
                +:+ (splitext (basename src)).2)) st.
Proof.
  intros _ Htaken.
  destruct (resolve_dest_enough (fs st) dest_dir (basename src))
    as (q & _ & _ & Hbusy & _ & Hres).
  destruct (Hbusy Htaken) as (n & Hn & -> & _).
  exists n. split; [done|]. rewrite paste_item_unfold, Hres. done.
Qed.

(** The theorem on the directory [my.folder] pasted where the name is taken. *)
Lemma directory_name_is_split_too_witness :
  ∃ n, 1 ≤ n
    ∧ resolve_dest dotted_folder "/dst" "my.folder"
      = join "/dst" ("my" +:+ "_copy" +:+ str n +:+ ".folder").
Proof.
  destruct (directory_name_is_split_too "/dst" "/src/my.folder"
              (init None dotted_folder)) as (n & Hn & Hres & _).
  - vm_compute; reflexivity.
  - vm_compute; reflexivity.
  - exists n. split; [exact Hn|exact Hres].
Defined.

(** C3, as stated, fails: the directory [/src/my.folder] is pasted into
    [/dst], where [my.folder] exists. The copy goes to [my_copy1.folder];
    no [my.folder_copy1] is made. *)
Lemma dotted_directory_gets_suffix_before_dot :
  fs_isdir dotted_folder "/src/my.folder" = true
  ∧ resolve_dest dotted_folder "/dst" "my.folder" = "/dst/my_copy1.folder"
  ∧ (let st' := action_paste "/dst"
                  (action_copy ["/src/my.folder"] (init None dotted_folder)) in
     fs_isdir (fs st') "/dst/my_copy1.folder" = true
     ∧ fs_read (fs st') "/dst/my_copy1.folder/notes" = Some (bytes "notes")
     ∧ fs_exists (fs st') "/dst/my.folder_copy1" = false
     ∧ messages st' = []).
Proof. vm_compute. repeat split. Qed.

(** *** C4: the resolved destination *)


Example resolve_dest_free_ex :
  resolve_dest three_files "/dst" "a.txt" = "/dst/a.txt".
Proof. vm_compute. reflexivity. Qed.

Example resolve_dest_taken_ex :
  resolve_dest (<["/src/a_copy1.txt" := Dir]> three_files) "/src" "a.txt"
  = "/src/a_copy2.txt".
Proof. vm_compute. reflexivity. Qed.

(** *** C5: the cut state after a cut-mode paste *)

(** C5 (amended). A cut-mode paste clears the cut state (flag, cut paths,
    system clipboard) when no item raises; when an item raises, the flag,
    the cut paths and the clipboard stay as they were, and one error box is
    added. *)
Theorem cut_state_cleared_unless_failure `{FileSystem Fs} (dest_dir : path)
    (urls : list path) (st : state Fs) :
  clipboard st = Some urls →
  is_cut_operation st = true →
  let st' := action_paste dest_dir st in
  match (for_each urls (paste_item dest_dir) st).1 with
  | Ok _ =>
      is_cut_operation st' = false ∧ cut_paths st' = [] ∧ clipboard st' = None
  | Raise e =>
      is_cut_operation st' = true ∧ cut_paths st' = cut_paths st
      ∧ clipboard st' = Some urls ∧ messages st' = messages st ++ [PasteFailed e]
  end.
Proof.
  intros Hclip Hflag. simpl. rewrite (action_paste_unfold _ _ _ Hclip).
  destruct (for_each urls (paste_item dest_dir) st) as [[[]|e] st1] eqn:Hloop;
    apply for_each_paste_same_mark in Hloop as (Hf & Hc & Hb & Hm); simpl.
  - unfold reset_after_paste. rewrite Hf, Hflag. done.
  - rewrite Hf, Hc, Hb, Hm. done.
Qed.

(** The theorem on a cut-mode paste that fails and on one that does not. *)
Lemma cut_state_cleared_unless_failure_witness :
  (let st' := action_paste "/dst" cut_then_b_deleted in
   is_cut_operation st' = true ∧ cut_paths st' = batch ∧ clipboard st' = Some batch)
  ∧ (let st' := action_paste "/dst" (action_cut batch (init None three_files)) in
     is_cut_operation st' = false ∧ cut_paths st' = [] ∧ clipboard st' = None).
Proof.
  split.
  - pose proof (cut_state_cleared_unless_failure "/dst" batch cut_then_b_deleted
                  eq_refl eq_refl) as Hfail.
    vm_compute in Hfail. vm_compute. tauto.
  - pose proof (cut_state_cleared_unless_failure "/dst" batch
                  (action_cut batch (init None three_files)) eq_refl eq_refl) as Hok.
    vm_compute in Hok. vm_compute. tauto.
Defined.

(** C5, as stated, fails: three files are cut and [b.txt] is deleted before
    the paste. The paste moves [a.txt], fails on [b.txt], and leaves the cut
    flag set, the cut paths and the clipboard as they were. *)
Lemma cut_state_survives_failed_paste :
  let st' := action_paste "/dst" cut_then_b_deleted in
  fs_exists (fs st') "/dst/a.txt" = true
  ∧ fs_exists (fs st') "/src/a.txt" = false
  ∧ messages st' = [PasteFailed (FileNotFoundError "/src/b.txt")]
  ∧ is_cut_operation st' = true
  ∧ cut_paths st' = batch
  ∧ clipboard st' = Some batch.
Proof. vm_compute. repeat split. Qed.

(** *** C6: a rename that changes nothing *)

(** C6 (amended). A rename to the empty name or to the current name is
    ignored without a report: [os.rename] is not called, no error box is
    shown, and the whole state, file system included, is unchanged. *)
Theorem rename_noop_is_silent `{FileSystem Fs} (idx : index) (new_name : string)
    (ok : bool) (st : state Fs) :
  new_name = "" ∨ new_name = fileName idx →
  action_rename [idx] new_name ok st = st.
Proof.
  intros Hname. unfold action_rename.
  destruct Hname as [->| ->].
  - by rewrite bool_decide_eq_true_2, andb_false_r.
  - by rewrite (bool_decide_eq_true_2 (fileName idx = fileName idx)), andb_false_r.
Qed.

(** The theorem on a rename of [a.txt] to [a.txt]. *)
Lemma rename_noop_is_silent_witness :
  action_rename [mkIndex "/src/a.txt" "a.txt"] "a.txt" true (init None three_files)
  = init None three_files.
Proof.
  apply (rename_noop_is_silent (mkIndex "/src/a.txt" "a.txt") "a.txt" true
           (init None three_files)).
  right. reflexivity.
Defined.

(** C6, as stated, fails: renaming [a.txt] to [a.txt], or to the empty
    name, reports nothing; no error box is shown. (A rename that fails in
    [os.rename], here of an entry deleted from outside, does show one.) *)
Lemma noop_rename_reports_nothing :
  messages (action_rename [mkIndex "/src/a.txt" "a.txt"] "a.txt" true
              (init None three_files)) = []
  ∧ messages (action_rename [mkIndex "/src/a.txt" "a.txt"] "" true
                (init None three_files)) = []
  ∧ messages (action_rename [mkIndex "/src/b.txt" "b.txt"] "z.txt" true
                (external_delete "/src/b.txt" (init None three_files)))
    = [RenameFailed (FileNotFoundError "/src/b.txt")].
Proof. vm_compute. repeat split. Qed.

(** *** C7: the source after a copy and after a move *)




(** *** C8: the collision loop ends *)

(** C8. The collision loop ends for every input: the probed names are
    distinct for distinct counters, the file system has finitely many
    entries, and so for every starting path and counter there is a path
    that the loop returns under every bound above the number of entries;
    that path does not exist. *)
Theorem collision_loop_terminates `{FileSystem Fs} (files : Fs) (dest_dir : path)
    (base ext : string) (dest_path : path) (counter : nat) :
  (∀ n m, probe_path dest_dir base ext n = probe_path dest_dir base ext m → n = m)
  ∧ ∃ resolved,
      fs_exists files resolved = false
      ∧ ∀ fuel, length (fs_listing files) < fuel →
          while_exists fuel files dest_dir base ext dest_path counter
          = Some resolved.
Proof.
  split.
  - intros n m. apply join_copy_name_inj.
  - destruct (while_exists_enough files dest_dir base ext dest_path counter)
      as (q & Hq & _ & _ & Hfuel).
    by exists q.
Qed.

(** *** C9: marking an empty selection *)

(** C9. Marking with an empty selection changes nothing: the cut flag, the
    cut paths, the system clipboard (and the rest of the state) are as
    before, for [action_copy] and for [action_cut]; a cut mark recorded
    earlier still decides which sources a paste moves. *)
Theorem mark_empty_selection_noop `{FileSystem Fs} (st : state Fs) :
  action_copy [] st = st ∧ action_cut [] st = st
  ∧ ∀ src, is_move (action_copy [] st) src = is_move st src
           ∧ is_move (action_cut [] st) src = is_move st src.
Proof. by repeat split. Qed.

Example empty_mark_keeps_cut_ex :
  let st := action_cut batch (init None three_files) in
  is_cut_operation (action_copy [] st) = true
  ∧ cut_paths (action_cut [] st) = batch
  ∧ clipboard (action_copy [] st) = Some batch.
Proof. vm_compute. repeat split. Qed.

(** *** C10: a paste after a copy mark *)



(** ** Further properties of the actions *)

(** *** Deletion ([action_delete]) *)

(** X1. A deletion never touches the cut flag, the cut paths, the system
    clipboard or the error boxes of the other actions, whatever it deletes
    and whether or not it fails; with an empty selection or without the
    user's confirmation it changes nothing at all. *)
Theorem delete_keeps_marks `{FileSystemEdit Fs} (paths : list path)
    (answer : reply) (st : state Fs) :
  same_mark st (action_delete paths answer st).1
  ∧ (paths = [] ∨ answer = No → action_delete paths answer st = (st, None)).
Proof.
  split; [apply action_delete_same_mark|].
  intros [->| ->]; [done|]. by destruct paths.
Qed.

(** X2. A confirmed deletion handles the selection in order up to the
    first item that raises: when the items of [pre] are deleted and the
    next item [x] raises [e], the action ends in the state the failing call
    left and reports [e]; no item of [post] is attempted. *)
Theorem delete_stops_at_first_failure `{FileSystemEdit Fs} (pre : list path)
    (x : path) (post : list path) (st st1 st2 : state Fs) (e : exn) :
  for_each pre delete_item st = (Ok (), st1) →
  delete_item x st1 = (Raise e, st2) →
  action_delete (pre ++ x :: post) Yes st = (st2, Some e).
Proof.
  intros Hpre Hx.
  assert (for_each (pre ++ x :: post) delete_item st = (Raise e, st2)) as Hloop.
  { by rewrite for_each_app, Hpre, for_each_cons, Hx. }
  unfold action_delete, try_report. rewrite Hloop. by destruct pre.
Qed.

(** The theorem on three selected files of which the second is gone: the
    first is deleted, the third stays. *)
Lemma delete_stops_at_first_failure_witness :
  action_delete batch Yes (init None (delete "/src/b.txt" three_files))
  = (init None (delete "/src/a.txt" (delete "/src/b.txt" three_files)),
     Some (FileNotFoundError "/src/b.txt"))
  ∧ fs_exists (delete "/src/a.txt" (delete "/src/b.txt" three_files)) "/src/c.txt"
    = true.
Proof.
  split; [|by vm_compute].
  apply (delete_stops_at_first_failure ["/src/a.txt"] "/src/b.txt" ["/src/c.txt"]
           (init None (delete "/src/b.txt" three_files))
           (init None (delete "/src/a.txt" (delete "/src/b.txt" three_files))));
    vm_compute; reflexivity.
Defined.

(** X3. A deletion only removes: every entry that exists after
    [action_delete] existed before it, with the same kind and content,
    also when the action fails part of the way. *)
Theorem delete_only_removes `{FileSystemEditLaws Fs} (paths : list path)
    (answer : reply) (st : state Fs) :
  entries_only_removed (fs st) (fs (action_delete paths answer st).1).
Proof.
  destruct paths as [|p paths], answer; try apply entries_only_removed_refl.
  rewrite action_delete_unfold.
  destruct (for_each (p :: paths) delete_item st) as [[[]|e] st'] eqn:Hloop;
    by eapply for_each_delete_only_removes.
Qed.

Lemma delete_only_removes_witness :
  entries_only_removed three_files
    (fs (action_delete batch Yes (init None three_files)).1).
Proof. exact (delete_only_removes batch Yes (init None three_files)). Defined.

(** X4. When a confirmed deletion reports no error, none of the selected
    paths exists afterwards. *)
Theorem delete_removes_every_selected `{FileSystemEditLaws Fs}
    (paths : list path) (st st' : state Fs) :
  action_delete paths Yes st = (st', None) →
  ∀ p, p ∈ paths → fs_exists (fs st') p = false.
Proof.
  apply action_delete_all_gone.
Qed.

Lemma delete_removes_every_selected_witness :
  fs_exists (fs (action_delete ["/src/a.txt"; "/src"] Yes (init None three_files)).1)
    "/src" = false.
Proof.
  apply (delete_removes_every_selected ["/src/a.txt"; "/src"]
           (init None three_files)
           (action_delete ["/src/a.txt"; "/src"] Yes (init None three_files)).1).
  - vm_compute; reflexivity.
  - apply list_elem_of_further, list_elem_of_here.
Defined.

(** *** New folder ([action_new_folder]) *)

(** X5. Creating a folder never touches the marks and leaves every existing
    entry as it was. With a confirmed, non-empty name: when no error is
    reported the target [current_dir/name] is a directory afterwards; when
    the target already exists the action reports [FileExistsError] and
    changes nothing (no free name is searched, unlike a paste). A cancelled
    dialog or an empty name changes nothing. *)
Theorem new_folder_creates_or_reports `{FileSystemEditLaws Fs}
    (current_dir : path) (new_folder_name : string) (ok : bool) (st : state Fs) :
  let target := join current_dir new_folder_name in
  let r := action_new_folder current_dir new_folder_name ok st in
  same_mark st r.1
  ∧ entries_preserved (fs st) (fs r.1)
  ∧ (ok = true → new_folder_name ≠ "" → r.2 = None →
     fs_isdir (fs r.1) target = true)
  ∧ (ok = true → new_folder_name ≠ "" → fs_exists (fs st) target = true →
     r = (st, Some (FileExistsError target)))
  ∧ (ok = false ∨ new_folder_name = "" → r = (st, None)).
Proof.
  simpl. unfold action_new_folder, try_report.
  destruct ok; simpl; [|by repeat split; try apply same_mark_refl].
  case_bool_decide as Hname; simpl;
    [by repeat split; try apply same_mark_refl|].
  destruct (os_call (fs_makedirs (join current_dir new_folder_name)) st)
    as [[[]|e] st'] eqn:Hcall; simpl.
  - pose proof (os_call_same_mark _ _ _ _ Hcall) as Hmark.
    apply os_call_fs in Hcall.
    split; [done|]. split; [by eapply makedirs_preserves|].
    split; [intros _ _ _; by eapply makedirs_creates|].
    split; [|by intros [|]].
    intros _ _ Htaken. rewrite (makedirs_existing _ _ Htaken) in Hcall. done.
  - pose proof (os_call_same_mark _ _ _ _ Hcall) as Hmark.
    pose proof (os_call_fs _ _ _ _ Hcall) as Hfs.
    split; [done|]. split; [by eapply makedirs_preserves|].
    split; [done|]. split; [|by intros [|]].
    intros _ _ Htaken.
    rewrite (os_call_keeps_state _ _ _ (makedirs_existing _ _ Htaken)) in Hcall.
    by injection Hcall as <- <-.
Qed.

Lemma new_folder_creates_or_reports_witness :
  fs_isdir (fs (action_new_folder "/dst" "photos" true (init None three_files)).1)
    "/dst/photos" = true
  ∧ action_new_folder "/" "src" true (init None three_files)
    = (init None three_files, Some (FileExistsError "/src")).
Proof.
  split.
  - apply (new_folder_creates_or_reports "/dst" "photos" true (init None three_files));
      [reflexivity|discriminate|vm_compute; reflexivity].
  - apply (new_folder_creates_or_reports "/" "src" true (init None three_files));
      [reflexivity|discriminate|vm_compute; reflexivity].
Defined.

(** *** Rename ([action_rename]) *)

(** X6. A rename to a new name without a separator stays in the entry's
    directory: the path handed to [os.rename] has the directory part of the
    old path and the new name as its base name. *)
Theorem rename_stays_in_directory `{FileSystem Fs} (idx : index)
    (new_name : string) (st : state Fs) :
  contains sep new_name = false →
  new_name ≠ "" →
  new_name ≠ fileName idx →
  ∃ new_path,
    dirname new_path = dirname (filePath idx)
    ∧ basename new_path = new_name
    ∧ action_rename [idx] new_name true st
      = try_except (os_call (fs_rename (filePath idx) new_path))
          (λ e, show_message (RenameFailed e)) st.
Proof.
  intros Hsep Hne Hnew. exists (join (dirname (filePath idx)) new_name).
  split; [by apply dirname_join; [apply dirname_shape|]|].
  split; [by apply basename_join|].
  unfold action_rename. by rewrite !bool_decide_eq_false_2.
Qed.

Lemma rename_stays_in_directory_witness :
  ∃ new_path,
    dirname new_path = "/src"
    ∧ basename new_path = "z.txt"
    ∧ fs_read (fs (action_rename [mkIndex "/src/a.txt" "a.txt"] "z.txt" true
                     (init None three_files))) new_path
      = Some (bytes "alpha").
Proof.
  destruct (rename_stays_in_directory (mkIndex "/src/a.txt" "a.txt") "z.txt"
              (init None three_files)) as (new_path & Hdir & Hbase & Hact);
    [reflexivity|discriminate|discriminate|].
  exists "/src/z.txt". split; [reflexivity|]. split; [reflexivity|].
  vm_compute. reflexivity.
Defined.

(** A new name with a separator leaves the directory. *)
Example rename_with_separator_ex :
  fs_exists
    (fs (action_rename [mkIndex "/src/a.txt" "a.txt"] "/dst/a.txt" true
           (init None three_files))) "/dst/a.txt" = true.
Proof. vm_compute. reflexivity. Qed.

(** X7. A rename never touches the cut flag, the cut paths or the system
    clipboard (a renamed entry stays in the cut paths under its old name),
    and shows at most one error box; unless exactly one row is selected and
    the dialog is confirmed it changes nothing. *)
Theorem rename_keeps_marks `{FileSystem Fs} (indexes : list index)
    (new_name : string) (ok : bool) (st : state Fs) :
  let st' := action_rename indexes new_name ok st in
  is_cut_operation st' = is_cut_operation st
  ∧ cut_paths st' = cut_paths st
  ∧ clipboard st' = clipboard st
  ∧ (messages st' = messages st
     ∨ ∃ e, messages st' = messages st ++ [RenameFailed e])
  ∧ (length indexes ≠ 1 ∨ ok = false → st' = st).
Proof.
  simpl. unfold action_rename.
  destruct indexes as [|idx [|idx' indexes]];
    [by repeat split; auto| |by repeat split; auto].
  destruct (ok && _ && _) eqn:Hguard.
  - unfold try_except.
    destruct (os_call _ st) as [[[]|e] st'] eqn:Hcall;
      apply os_call_same_mark in Hcall as (Hf & Hc & Hb & Hm); simpl.
    + repeat split; [done..|by left|].
      intros [?| ->]; [done|]. done.
    + rewrite Hm. repeat split; [done..|right; by exists e|].
      intros [?| ->]; [done|]. done.
  - repeat split; auto.
Qed.

(** *** Paste ([action_paste]) *)

(** X8. Every paste destination lies directly in the destination
    directory: the resolved path is [os.path.join(dest_dir, name)] for its
    own base name, and that name holds no separator, whatever the source
    path and the content of the file system. *)
Theorem paste_destination_in_dest_dir `{FileSystem Fs} (files : Fs)
    (dest_dir src_path : path) :
  let dest_path := resolve_dest files dest_dir (basename src_path) in
  contains sep (basename dest_path) = false
  ∧ dest_path = join dest_dir (basename dest_path).
Proof.
  simpl.
  destruct (resolve_dest_in_dest_dir files dest_dir (basename src_path))
    as (name & Hname & ->); [apply basename_no_sep|].
  by rewrite basename_join.
Qed.



Example self_paste_ex :
  let st' := action_paste "/src" (action_copy ["/src/a.txt"] (init None three_files)) in
  fs_read (fs st') "/src/a_copy1.txt" = Some (bytes "alpha")
  ∧ fs_read (fs st') "/src/a.txt" = Some (bytes "alpha").
Proof. vm_compute. by split. Qed.

(** X10. A copy-mode paste in which no item raises ends in the state the
    loop reached and has made, for every source, an entry that did not
    exist before the paste; for a source that was a regular file before
    the paste the new entry holds the content the source had. *)
Theorem copy_paste_creates_copies `{FileSystemLaws Fs} `{!FileSystemPasteLaws Fs}
    (dest_dir : path) (urls : list path) (st st' : state Fs) :
  clipboard st = Some urls →
  is_cut_operation st = false →
  for_each urls (paste_item dest_dir) st = (Ok (), st') →
  action_paste dest_dir st = st'
  ∧ ∀ src, src ∈ urls →
      ∃ dst, fs_exists (fs st) dst = false
        ∧ fs_exists (fs st') dst = true
        ∧ (fs_exists (fs st) src = true → fs_isdir (fs st) src = false →
           fs_read (fs st') dst = fs_read (fs st) src).
Proof.
  intros Hclip Hflag Hloop. split.
  - rewrite (action_paste_unfold _ _ _ Hclip), Hloop.
    apply for_each_paste_same_mark in Hloop as (Hf & _).
    unfold reset_after_paste. by rewrite Hf, Hflag.
  - rewrite for_each_paste_copies in Hloop by done.
    by eapply for_each_copy_creates.
Qed.

Lemma copy_paste_creates_copies_witness :
  ∃ dst, fs_exists three_files dst = false
    ∧ fs_read (fs (action_paste "/dst" (action_copy batch (init None three_files)))) dst
      = Some (bytes "gamma").
Proof.
  destruct (copy_paste_creates_copies "/dst" batch
              (action_copy batch (init None three_files))
              (for_each batch (paste_item "/dst")
                 (action_copy batch (init None three_files))).2)
    as [-> Hall]; [reflexivity|reflexivity|vm_compute; reflexivity|].
  destruct (Hall "/src/c.txt") as (dst & Hfresh & _ & Hread).
  { apply list_elem_of_further, list_elem_of_further, list_elem_of_here. }
  exists dst. split; [exact Hfresh|].
  rewrite Hread; [reflexivity|vm_compute; reflexivity|vm_compute; reflexivity].
Defined.

(** X11. A cut-mode paste in which no item raises is one-shot: it clears
    the clipboard, so a second paste, into any directory, changes
    nothing. *)
Theorem cut_paste_is_one_shot `{FileSystem Fs} (dest_dir dest_dir' : path)
    (urls : list path) (st st1 : state Fs) :
  clipboard st = Some urls →
  is_cut_operation st = true →
  for_each urls (paste_item dest_dir) st = (Ok (), st1) →
  action_paste dest_dir' (action_paste dest_dir st) = action_paste dest_dir st.
Proof.
  intros Hclip Hflag Hloop.
  rewrite (action_paste_unfold _ _ _ Hclip), Hloop.
  apply for_each_paste_same_mark in Hloop as (Hf & _).
  unfold reset_after_paste. rewrite Hf, Hflag. done.
Qed.

Lemma cut_paste_is_one_shot_witness :
  action_paste "/src" (action_paste "/dst" (action_cut batch (init None three_files)))
  = action_paste "/dst" (action_cut batch (init None three_files)).
Proof.
  apply (cut_paste_is_one_shot "/dst" "/src" batch
           (action_cut batch (init None three_files))
           (for_each batch (paste_item "/dst")
              (action_cut batch (init None three_files))).2);
    [reflexivity|reflexivity|vm_compute; reflexivity].
Defined.

(** X12. A paste shows at most one error box, and it changes the cut flag,
    the cut paths and the clipboard in one way only: by the reset after a
    cut-mode batch without a failure. With no URLs on the clipboard it
    changes nothing. *)
Theorem paste_changes_marks_only_by_reset `{FileSystem Fs} (dest_dir : path)
    (st : state Fs) :
  let st' := action_paste dest_dir st in
  (same_mark st st'
   ∨ (is_cut_operation st = true ∧ is_cut_operation st' = false
      ∧ cut_paths st' = [] ∧ clipboard st' = None ∧ messages st' = messages st)
   ∨ (is_cut_operation st' = is_cut_operation st ∧ cut_paths st' = cut_paths st
      ∧ clipboard st' = clipboard st
      ∧ ∃ e, messages st' = messages st ++ [PasteFailed e]))
  ∧ (clipboard st = None → st' = st).
Proof.
  simpl. split; [|intros Hclip; unfold action_paste; by rewrite Hclip].
  destruct (clipboard st) as [urls|] eqn:Hclip;
    [|left; unfold action_paste; rewrite Hclip; apply same_mark_refl].
  rewrite (action_paste_unfold _ _ _ Hclip).
  destruct (for_each urls (paste_item dest_dir) st) as [[[]|e] st1] eqn:Hloop;
    apply for_each_paste_same_mark in Hloop as (Hf & Hc & Hb & Hm).
  - unfold reset_after_paste. destruct (is_cut_operation st1) eqn:Hflag; simpl.
    + right; left. repeat split; congruence.
    + left. repeat split; congruence.
  - right; right. simpl. rewrite Hm.
    split; [done|]. split; [done|]. split; [congruence|]. by exists e.
Qed.

(** *** Marks ([action_copy], [action_cut]) *)

(** X13. A mark replaces the previous one wholesale: after a non-empty cut
    mark nothing of an earlier cut or copy mark is left, and a non-empty
    copy mark replaces an earlier copy mark; the clipboard always holds
    the last marked selection alone. *)
Theorem mark_replaces_previous `{FileSystem Fs} (paths previous : list path)
    (st : state Fs) :
  paths ≠ [] →
  action_cut paths (action_cut previous st) = action_cut paths st
  ∧ action_cut paths (action_copy previous st) = action_cut paths st
  ∧ action_copy paths (action_copy previous st) = action_copy paths st
  ∧ clipboard (action_copy paths (action_cut previous st)) = Some paths.
Proof.
  intros Hne. destruct paths as [|p paths]; [done|].
  by destruct previous.
Qed.

Lemma mark_replaces_previous_witness :
  action_cut ["/src/c.txt"] (action_cut batch (init None three_files))
  = action_cut ["/src/c.txt"] (init None three_files).
Proof.
  apply (mark_replaces_previous ["/src/c.txt"] batch (init None three_files)).
  discriminate.
Defined.

(** *** Actions in sequence *)

(** X14. Deleting a cut entry leaves the cut mark in place, and the paste
    that follows fails on it: after a cut of [p :: rest] and a deletion,
    without error, of a selection that holds [p], a paste moves nothing,
    shows one error box for the missing [p], and leaves the cut flag, the
    cut paths and the clipboard as the cut set them. *)
Theorem paste_after_deleting_cut_entry `{FileSystemEditLaws Fs}
    `{!FileSystemPasteLaws Fs} (p : path) (rest selection : list path)
    (dest_dir : path) (st st2 : state Fs) :
  p ∈ selection →
  action_delete selection Yes (action_cut (p :: rest) st) = (st2, None) →
  action_paste dest_dir st2
  = show_message (PasteFailed (FileNotFoundError p)) st2
  ∧ is_cut_operation st2 = true
  ∧ cut_paths st2 = p :: rest
  ∧ clipboard st2 = Some (p :: rest).
Proof.
  intros Hin Hdel.
  pose proof (action_delete_all_gone selection _ _ Hdel p Hin) as Hgone.
  pose proof (action_delete_same_mark selection Yes (action_cut (p :: rest) st))
    as (Hf & Hc & Hb & _).
  rewrite Hdel in Hf, Hc, Hb. simpl in Hf, Hc, Hb.
  split; [|done].
  rewrite (action_paste_unfold _ _ _ Hb), for_each_cons, paste_item_unfold.
  unfold move_or_copy, is_move. rewrite Hf, Hc.
  rewrite bool_decide_eq_true_2 by apply list_elem_of_here. simpl.
  by rewrite (os_call_keeps_state _ _ _ (move_missing _ _ _ Hgone)).
Qed.

Lemma paste_after_deleting_cut_entry_witness :
  action_paste "/dst"
    (action_delete ["/src/a.txt"] Yes
       (action_cut ["/src/a.txt"; "/src/b.txt"] (init None three_files))).1
  = show_message (PasteFailed (FileNotFoundError "/src/a.txt"))
      (action_delete ["/src/a.txt"] Yes
         (action_cut ["/src/a.txt"; "/src/b.txt"] (init None three_files))).1.
Proof.
  apply (paste_after_deleting_cut_entry "/src/a.txt" ["/src/b.txt"] ["/src/a.txt"]
           "/dst" (init None three_files)).
  - apply list_elem_of_here.
  - vm_compute; reflexivity.
Defined.

(** *** Collision avoidance *)

(** X15. The resolved destination depends on the file system only through
    which paths exist: two file systems with the same existing paths give
    the same destination, whatever kinds and contents their entries
    have. *)
Theorem resolve_dest_depends_on_existence `{FileSystem Fs1} `{FileSystem Fs2}
    (files1 : Fs1) (files2 : Fs2) (dest_dir : path) (file_name : string) :
  (∀ p, fs_exists files1 p = fs_exists files2 p) →
  resolve_dest files1 dest_dir file_name = resolve_dest files2 dest_dir file_name.
Proof.
  intros Hsame.
  destruct (resolve_dest_enough files1 dest_dir file_name)
    as (q1 & Hq1 & Hfree1 & Hbusy1 & _ & ->).
  destruct (resolve_dest_enough files2 dest_dir file_name)
    as (q2 & Hq2 & Hfree2 & Hbusy2 & _ & ->).
  destruct (fs_exists files1 (join dest_dir file_name)) eqn:Htaken.
  - destruct (Hbusy1 eq_refl) as (n1 & Hn1 & -> & Hle1).
    destruct Hbusy2 as (n2 & Hn2 & -> & Hle2); [by rewrite <-Hsame|].
    f_equal. destruct (Nat.lt_trichotomy n1 n2) as [Hlt|[->|Hlt]]; [|done|].
    + rewrite Hsame, Hle2 in Hq1; [done|lia].
    + rewrite <-Hsame, Hle1 in Hq2; [done|lia].
  - rewrite Hfree1, Hfree2; [done|by rewrite <-Hsame|done].
Qed.

Lemma resolve_dest_depends_on_existence_witness :
  resolve_dest dotted_folder "/dst" "my.folder"
  = resolve_dest ((λ _ : node, File []) <$> dotted_folder) "/dst" "my.folder".
Proof.
  apply (resolve_dest_depends_on_existence dotted_folder
           ((λ _ : node, File []) <$> dotted_folder) "/dst" "my.folder").
  intros p. simpl. unfold RefFs.exists_. apply bool_decide_ext.
  rewrite lookup_fmap. symmetry. apply fmap_is_Some.
Defined.
